(** * Lesson1: accounts, users, a stub ML task and in-memory histories

    A shallow embedding of the two Python modules of the repository,

      - [src/mod_serv.py]                 (module [ModServ] below), and
      - [src/VScode/Lession1/mod_serv.py] (module [Lession1] below),

    followed by the properties of balances, histories and the prediction
    stub that are proved about them.

    Modelling conventions.
    - A Python object that is mutated by its methods is a record, and a
      method is a computation in a state-and-exception monad [M] over that
      record: a [raise] keeps the state as it was when it happened.
    - Python [float] is read twice.  The modules [ModServ_b64] and
      [Lession1_b64] have the balance methods and [execute] on IEEE 754
      binary64 numbers ([PrimFloat.float]), with rounding, the infinities
      and NaN: the balance invariant and what [execute] charges are proved
      there.  The modules [ModServ] and [Lession1] have amounts as exact
      rationals ([Q], numeric equality is [Qeq]): they carry the properties
      that are stated of exact amounts, and those in which no arithmetic on
      floats takes part.
    - Python [int] is [Z], [str] is [string], a [dict] with string keys is a
      [gmap string value], a [list] is a [list].
    - [datetime.now()] reads the clock: the instant read is an explicit
      argument [now] of the operation that reads it. *)

From Stdlib Require Import QArith Qpower Lqa Ascii Floats.
From stdpp Require Import gmap strings list fin_maps pretty.

Local Open Scope Z_scope.

(** ** Python values *)

(** An instant, as microseconds since the epoch. *)
Definition datetime := Z.
Bind Scope Z_scope with datetime.

#[local] Unset Elimination Schemes.
Inductive value : Type :=
  | VInt (z : Z)
  | VFloat (q : Q)
  | VStr (s : string)
  | VTime (t : datetime)
  | VList (l : list value)
  | VDict (d : gmap string value).
#[local] Set Elimination Schemes.

Abbreviation Dict := (gmap string value).

(** Python's [v == n] for an [int] [n]: numbers compare by value across
    [int] and [float], anything else is different from an [int]. *)
Definition py_eq_int (v : value) (n : Z) : bool :=
  match v with
  | VInt z => z =? n
  | VFloat q => Qeq_bool q (inject_Z n)
  | _ => false
  end.

(** [x < y] on exact rationals, next to the library's [Qle_bool]. *)
Definition Qlt_bool (x y : Q) : bool :=
  (Qnum x * QDen y <? Qnum y * QDen x)%Z.

(** ** Exceptions and the method monad *)

Inductive exn : Type :=
  | ValueError (msg : string)
  | KeyError (key : string).

Inductive outcome (A : Type) : Type :=
  | Return (a : A)
  | Raise (e : exn).
Arguments Return {A} a.
Arguments Raise {A} e.

Definition M (St A : Type) : Type := St -> outcome A * St.

Definition ret {St A} (a : A) : M St A := fun s => (Return a, s).

Definition raise {St A} (e : exn) : M St A := fun s => (Raise e, s).

Definition bind {St A B} (c : M St A) (k : A -> M St B) : M St B :=
  fun s =>
    match c s with
    | (Return a, s') => k a s'
    | (Raise e, s') => (Raise e, s')
    end.

Definition get {St} : M St St := fun s => (Return s, s).

Definition put {St} (s : St) : M St unit := fun _ => (Return tt, s).

Definition modify {St} (f : St -> St) : M St unit := fun s => (Return tt, f s).

(** Run a method of a sub-object held in a field of the state. *)
Definition zoom {St Sub A} (proj : St -> Sub) (upd : Sub -> St -> St)
    (c : M Sub A) : M St A :=
  fun s => let (r, sub') := c (proj s) in (r, upd sub' s).

Notation "'let!' x ':=' c 'in' k" := (bind c (fun x => k))
  (at level 10, x name, c at level 100, k at level 200).
Notation "c ';;' k" := (bind c (fun _ => k))
  (at level 100, k at level 200, right associativity).

(** [d[key]]: a missing key raises [KeyError]. *)
Definition getitem {St} (d : Dict) (key : string) : M St value :=
  match d !! key with
  | Some v => ret v
  | None => raise (KeyError key)
  end.

(** The comprehension [[x for x in l if cond(x)]], the condition being
    evaluated on the elements from left to right. *)
Fixpoint list_comp_if {St A} (cond : A -> M St bool) (l : list A) : M St (list A) :=
  match l with
  | [] => ret []
  | x :: l' =>
      let! b := cond x in
      let! rest := list_comp_if cond l' in
      ret (if b then x :: rest else rest)
  end.

(** ** src/mod_serv.py *)

Module ModServ.

Inductive Role : Type := USER | ADMIN.

Record Account : Type := mkAccount {
  user_id : Z;
  balance : Q;
  created_at : datetime
}.

Definition set_balance (b : Q) (a : Account) : Account :=
  {| user_id := user_id a; balance := b; created_at := created_at a |}.

(** [Account.__init__]; [initial_balance] defaults to [0.0]. *)
Definition Account_init (now : datetime) (uid : Z) (initial_balance : Q) : Account :=
  {| user_id := uid; balance := initial_balance; created_at := now |}.

Definition Account_init_default (now : datetime) (uid : Z) : Account :=
  Account_init now uid 0%Q.

Definition deposit (amount : Q) : M Account unit :=
  let! self := get in
  if Qle_bool amount 0 then
    raise (ValueError "Сумма пополнения должна быть положительной")
  else
    put (set_balance (balance self + amount)%Q self).

Definition withdraw (amount : Q) : M Account unit :=
  let! self := get in
  if Qle_bool amount 0 then
    raise (ValueError "Сумма списания должна быть положительной")
  else if Qlt_bool (balance self) amount then
    raise (ValueError "Недостаточно средств на балансе")
  else
    put (set_balance (balance self - amount)%Q self).

(** [User]: the password is kept hashed; [bcrypt.hashpw] with a fresh salt
    is an argument of the constructor.  [User_init] is a construction that
    returns: where [bcrypt.hashpw] raises (it refuses some passwords, by
    their length or their bytes), no object is built, and no property below
    speaks of that case. *)
Record User : Type := mkUser {
  User_user_id : Z;
  username : string;
  _hashed_password : string;
  role : Role;
  User_created_at : datetime
}.

Definition User_init (hashpw : string -> string) (now : datetime)
    (uid : Z) (name password : string) (r : Role) : User :=
  {| User_user_id := uid; username := name;
     _hashed_password := hashpw password; role := r; User_created_at := now |}.

Definition Admin_init (hashpw : string -> string) (now : datetime)
    (uid : Z) (name password : string) : User :=
  User_init hashpw now uid name password ADMIN.

(** [Role.value], and [User.__str__]; [str] of an [int] is its decimal
    numeral. *)
Definition Role_value (r : Role) : string :=
  match r with
  | USER => "user"
  | ADMIN => "admin"
  end.

Definition User_str (self : User) : string :=
  "User(id=" +:+ pretty (User_user_id self) +:+ ", username=" +:+ username self +:+
  ", role=" +:+ Role_value (role self) +:+ ")".

(** The abstract class [MLModel] and its one implementation. *)
Class MLModel (T : Type) : Type := { predict : T -> list Dict -> list Dict }.

Inductive ExampleMLModel : Type := ExampleMLModel_init.

Definition ExampleMLModel_predict (self : ExampleMLModel) (data : list Dict) : list Dict :=
  imap (fun i _ =>
          ({[ "prediction" := VInt (Z.of_nat i mod 2);
              "confidence" := VFloat (95 # 100) ]} : Dict)) data.

#[global] Instance ExampleMLModel_MLModel : MLModel ExampleMLModel :=
  {| predict := ExampleMLModel_predict |}.

Record PredictionHistory : Type := mkPredictionHistory { history : list Dict }.

Definition PredictionHistory_init : PredictionHistory := {| history := [] |}.

Definition prediction_record (now : datetime) (task_id uid : Z)
    (input_data result : list Dict) : Dict :=
  {[ "task_id" := VInt task_id;
     "user_id" := VInt uid;
     "input_data" := VList (VDict <$> input_data);
     "result" := VList (VDict <$> result);
     "timestamp" := VTime now ]}.

Definition add_prediction (now : datetime) (task_id uid : Z)
    (input_data result : list Dict) : M PredictionHistory unit :=
  modify (fun self =>
    {| history := history self ++ [prediction_record now task_id uid input_data result] |}).

Definition get_user_history (uid : Z) : M PredictionHistory (list Dict) :=
  let! self := get in
  list_comp_if (fun record =>
                  let! v := getitem record "user_id" in ret (py_eq_int v uid))
               (history self).

Definition TASK_COST : Q := 1.

Record MLTask (T : Type) : Type := mkMLTask {
  task_id : Z;
  user : User;
  account : Account;
  data : list Dict;
  model : T
}.
Arguments mkMLTask {T}.
Arguments task_id {T}.
Arguments user {T}.
Arguments account {T}.
Arguments data {T}.
Arguments model {T}.

Definition set_account {T} (a : Account) (t : MLTask T) : MLTask T :=
  {| task_id := task_id t; user := user t; account := a;
     data := data t; model := model t |}.

Definition execute {T} `{MLModel T} : M (MLTask T) (list Dict) :=
  let! self := get in
  if Qlt_bool (balance (account self)) TASK_COST then
    raise (ValueError "Недостаточно средств для выполнения задачи")
  else
    zoom account set_account (withdraw TASK_COST) ;;
    let! self := get in
    ret (predict (model self) (data self)).

Record TransactionHistory : Type := mkTransactionHistory { transactions : list Dict }.

Definition TransactionHistory_init : TransactionHistory := {| transactions := [] |}.

Definition transaction_record (now : datetime) (uid account_id : Z)
    (amount : Q) (description : string) : Dict :=
  {[ "user_id" := VInt uid;
     "account_id" := VInt account_id;
     "amount" := VFloat amount;
     "description" := VStr description;
     "timestamp" := VTime now ]}.

Definition add_transaction (now : datetime) (uid account_id : Z)
    (amount : Q) (description : string) : M TransactionHistory unit :=
  modify (fun self =>
    {| transactions :=
         transactions self ++ [transaction_record now uid account_id amount description] |}).

Definition get_user_transactions (uid : Z) : M TransactionHistory (list Dict) :=
  let! self := get in
  list_comp_if (fun t =>
                  let! v := getitem t "user_id" in ret (py_eq_int v uid))
               (transactions self).

End ModServ.

(** ** src/VScode/Lession1/mod_serv.py *)

Module Lession1.

Record User : Type := mkUser {
  user_id : Z;
  username : string;
  password : string;
  balance : Q;
  role : string
}.

Definition set_balance (b : Q) (u : User) : User :=
  {| user_id := user_id u; username := username u; password := password u;
     balance := b; role := role u |}.

(** [User.__init__]; [balance] defaults to [0.0] and [role] to ["user"]. *)
Definition User_init (uid : Z) (name pw : string) (bal : Q) (r : string) : User :=
  {| user_id := uid; username := name; password := pw; balance := bal; role := r |}.

Definition User_init_default (uid : Z) (name pw : string) : User :=
  User_init uid name pw 0%Q "user".

Definition add_balance (amount : Q) : M User unit :=
  let! self := get in
  if Qlt_bool 0 amount then
    put (set_balance (balance self + amount)%Q self)
  else
    raise (ValueError "Сумма пополнения должна быть положительной").

Definition deduct_balance (amount : Q) : M User unit :=
  let! self := get in
  if Qle_bool amount (balance self) then
    put (set_balance (balance self - amount)%Q self)
  else
    raise (ValueError "Недостаточно средств на балансе").

(** [Admin.__init__] and [Admin.add_user_balance]; the state of the latter
    is the user whose balance is topped up. *)
Definition Admin_init (uid : Z) (name pw : string) : User :=
  User_init uid name pw 0%Q "admin".

Definition add_user_balance (amount : Q) : M User unit :=
  add_balance amount.

Class MLModel (T : Type) : Type := { predict : T -> list Dict -> list Dict }.

Inductive ExampleMLModel : Type := ExampleMLModel_init.

Definition ExampleMLModel_predict (self : ExampleMLModel) (data : list Dict) : list Dict :=
  (fun _ => ({[ "prediction" := VInt 1 ]} : Dict)) <$> data.

#[global] Instance ExampleMLModel_MLModel : MLModel ExampleMLModel :=
  {| predict := ExampleMLModel_predict |}.

Record MLTask (T : Type) : Type := mkMLTask {
  task_id : Z;
  user : User;
  data : list Dict;
  model : T
}.
Arguments mkMLTask {T}.
Arguments task_id {T}.
Arguments user {T}.
Arguments data {T}.
Arguments model {T}.

Definition set_user {T} (u : User) (t : MLTask T) : MLTask T :=
  {| task_id := task_id t; user := u; data := data t; model := model t |}.

Definition execute {T} `{MLModel T} : M (MLTask T) (list Dict) :=
  let! self := get in
  if Qle_bool 1 (balance (user self)) then
    zoom user set_user (deduct_balance 1) ;;
    let! self := get in
    ret (predict (model self) (data self))
  else
    raise (ValueError "Недостаточно средств на балансе").

Record TransactionHistory : Type := mkTransactionHistory { transactions : list Dict }.

Definition TransactionHistory_init : TransactionHistory := {| transactions := [] |}.

Definition transaction_record (u : User) (amount : Q) (description : string) : Dict :=
  {[ "user_id" := VInt (user_id u);
     "amount" := VFloat amount;
     "description" := VStr description ]}.

Definition add_transaction (u : User) (amount : Q) (description : string) :
    M TransactionHistory unit :=
  modify (fun self =>
    {| transactions := transactions self ++ [transaction_record u amount description] |}).

Definition get_user_transactions (u : User) : M TransactionHistory (list Dict) :=
  let! self := get in
  list_comp_if (fun t =>
                  let! v := getitem t "user_id" in ret (py_eq_int v (user_id u)))
               (transactions self).

End Lession1.

(** ** The balance methods and [execute], with [float] as binary64

    The methods of the two modules that compare or change a balance, once
    more, with Python's [float] as the IEEE 754 binary64 number that it is
    ([PrimFloat.float]): [+] and [-] round to the nearest number, ties to
    even, and overflow to an infinity; [inf - inf] is NaN; every comparison
    with NaN is false.  The amounts are floats, as the annotations of the
    methods say. *)

Module ModServ_b64.

Record Account : Type := mkAccount {
  user_id : Z;
  balance : float;
  created_at : datetime
}.

Definition set_balance (b : float) (a : Account) : Account :=
  {| user_id := user_id a; balance := b; created_at := created_at a |}.

(** [Account.__init__]; [initial_balance] defaults to [0.0]. *)
Definition Account_init (now : datetime) (uid : Z) (initial_balance : float) : Account :=
  {| user_id := uid; balance := initial_balance; created_at := now |}.

Definition Account_init_default (now : datetime) (uid : Z) : Account :=
  Account_init now uid 0%float.

Definition deposit (amount : float) : M Account unit :=
  let! self := get in
  if (amount <=? 0)%float then
    raise (ValueError "Сумма пополнения должна быть положительной")
  else
    put (set_balance (balance self + amount)%float self).

Definition withdraw (amount : float) : M Account unit :=
  let! self := get in
  if (amount <=? 0)%float then
    raise (ValueError "Сумма списания должна быть положительной")
  else if (balance self <? amount)%float then
    raise (ValueError "Недостаточно средств на балансе")
  else
    put (set_balance (balance self - amount)%float self).

Definition TASK_COST : float := 1%float.

Record MLTask (T : Type) : Type := mkMLTask {
  task_id : Z;
  user : ModServ.User;
  account : Account;
  data : list Dict;
  model : T
}.
Arguments mkMLTask {T}.
Arguments task_id {T}.
Arguments user {T}.
Arguments account {T}.
Arguments data {T}.
Arguments model {T}.

Definition set_account {T} (a : Account) (t : MLTask T) : MLTask T :=
  {| task_id := task_id t; user := user t; account := a;
     data := data t; model := model t |}.

Definition execute {T} `{ModServ.MLModel T} : M (MLTask T) (list Dict) :=
  let! self := get in
  if (balance (account self) <? TASK_COST)%float then
    raise (ValueError "Недостаточно средств для выполнения задачи")
  else
    zoom account set_account (withdraw TASK_COST) ;;
    let! self := get in
    ret (ModServ.predict (model self) (data self)).

End ModServ_b64.

Module Lession1_b64.

Record User : Type := mkUser {
  user_id : Z;
  username : string;
  password : string;
  balance : float;
  role : string
}.

Definition set_balance (b : float) (u : User) : User :=
  {| user_id := user_id u; username := username u; password := password u;
     balance := b; role := role u |}.

(** [User.__init__]; [balance] defaults to [0.0] and [role] to ["user"]. *)
Definition User_init (uid : Z) (name pw : string) (bal : float) (r : string) : User :=
  {| user_id := uid; username := name; password := pw; balance := bal; role := r |}.

Definition User_init_default (uid : Z) (name pw : string) : User :=
  User_init uid name pw 0%float "user".

Definition add_balance (amount : float) : M User unit :=
  let! self := get in
  if (0 <? amount)%float then
    put (set_balance (balance self + amount)%float self)
  else
    raise (ValueError "Сумма пополнения должна быть положительной").

Definition deduct_balance (amount : float) : M User unit :=
  let! self := get in
  if (amount <=? balance self)%float then
    put (set_balance (balance self - amount)%float self)
  else
    raise (ValueError "Недостаточно средств на балансе").

(** [Admin.add_user_balance]; its state is the user whose balance is
    topped up. *)
Definition add_user_balance (amount : float) : M User unit :=
  add_balance amount.

Record MLTask (T : Type) : Type := mkMLTask {
  task_id : Z;
  user : User;
  data : list Dict;
  model : T
}.
Arguments mkMLTask {T}.
Arguments task_id {T}.
Arguments user {T}.
Arguments data {T}.
Arguments model {T}.

Definition set_user {T} (u : User) (t : MLTask T) : MLTask T :=
  {| task_id := task_id t; user := u; data := data t; model := model t |}.

Definition execute {T} `{Lession1.MLModel T} : M (MLTask T) (list Dict) :=
  let! self := get in
  if (1 <=? balance (user self))%float then
    zoom user set_user (deduct_balance 1%float) ;;
    let! self := get in
    ret (Lession1.predict (model self) (data self))
  else
    raise (ValueError "Недостаточно средств на балансе").

End Lession1_b64.

(** * Vocabulary of the properties *)

(** A user of the duplicate module whose balance, an exact rational, is
    not negative. *)
Definition User_ok (u : Lession1.User) : Prop := (0 <= Lession1.balance u)%Q.

(** The balance-changing methods of an account, as data. *)
Inductive Account_op : Type := Deposit (amount : Q) | Withdraw (amount : Q).

Definition Account_call (op : Account_op) : M ModServ.Account unit :=
  match op with
  | Deposit amount => ModServ.deposit amount
  | Withdraw amount => ModServ.withdraw amount
  end.

(** A client that goes on after an exception it has caught: the state
    after a list of calls, whatever each of them answered. *)
Definition run_all {St Op} (call : Op -> M St unit) (ops : list Op) (s : St) : St :=
  foldl (fun s op => (call op s).2) s ops.

(** A call that raised [ValueError] and left the state as it was. *)
Definition rejected {St A} (c : M St A) (s : St) : Prop :=
  exists msg, c s = (Raise (ValueError msg), s).

(** The task after its payer was charged [cost]. *)
Definition ModServ_charged {T} (cost : Q) (t : ModServ.MLTask T) : ModServ.MLTask T :=
  ModServ.set_account
    (ModServ.set_balance (ModServ.balance (ModServ.account t) - cost)%Q
       (ModServ.account t)) t.

Definition Lession1_charged {T} (cost : Q) (t : Lession1.MLTask T) : Lession1.MLTask T :=
  Lession1.set_user
    (Lession1.set_balance (Lession1.balance (Lession1.user t) - cost)%Q
       (Lession1.user t)) t.

(** The test of the two comprehensions, [record["user_id"] == user_id], on a
    record that has the key. *)
Definition has_user_id (uid : Z) (record : Dict) : bool :=
  match record !! "user_id" with
  | Some v => py_eq_int v uid
  | None => false
  end.

(** Every stored record has a ["user_id"] key. *)
Definition well_keyed (records : list Dict) : Prop :=
  Forall (fun record => is_Some (record !! "user_id")) records.


(** The loop [for _ in range(n): c], which an exception leaves. *)
Fixpoint times {St A} (n : nat) (c : M St A) : M St unit :=
  match n with
  | O => ret tt
  | S n' => c ;; times n' c
  end.

(** The positive amounts that a list of calls asks to deposit, and to
    withdraw, summed. *)
Definition deposits_asked (ops : list Account_op) : Q :=
  foldr (fun op total =>
           match op with
           | Deposit amount => if Qlt_bool 0 amount then (amount + total)%Q else total
           | Withdraw _ => total
           end) 0%Q ops.

Definition withdrawals_asked (ops : list Account_op) : Q :=
  foldr (fun op total =>
           match op with
           | Withdraw amount => if Qlt_bool 0 amount then (amount + total)%Q else total
           | Deposit _ => total
           end) 0%Q ops.

(** Some stored record has no ["user_id"] key. *)
Definition some_unkeyed (records : list Dict) : Prop :=
  exists record, record ∈ records /\ record !! "user_id" = None.

(** No character of the string is a comma. *)
Fixpoint comma_free (s : string) : Prop :=
  match s with
  | EmptyString => True
  | String c s' => c <> ","%char /\ comma_free s'
  end.

(** Two users, resp. two accounts, that differ at most in their balance. *)
Definition User_same_but_balance (u u' : Lession1.User) : Prop :=
  Lession1.user_id u' = Lession1.user_id u /\
  Lession1.username u' = Lession1.username u /\
  Lession1.password u' = Lession1.password u /\
  Lession1.role u' = Lession1.role u.

Definition Account_same_but_balance (a a' : ModServ.Account) : Prop :=
  ModServ.user_id a' = ModServ.user_id a /\
  ModServ.created_at a' = ModServ.created_at a.

(** ** Binary64 balances *)

(** Python's [x >= 0] on a float: false on NaN and on the negative numbers,
    true on both zeros and on [inf]. *)
Definition nonneg (x : float) : Prop := (0 <=? x)%float = true.

(** Python's [x == inf and y == inf]. *)
Definition both_inf (x y : float) : bool :=
  (x =? infinity)%float && (y =? infinity)%float.

(** The balance invariant on binary64 balances. *)
Definition Account_b64_ok (a : ModServ_b64.Account) : Prop :=
  nonneg (ModServ_b64.balance a).

Definition User_b64_ok (u : Lession1_b64.User) : Prop :=
  nonneg (Lession1_b64.balance u).

(** The balance-changing methods, as data, and the calls whose amount is a
    finite number (neither NaN nor an infinity). *)
Inductive Account_b64_op : Type :=
  Deposit_b64 (amount : float) | Withdraw_b64 (amount : float).

Definition Account_b64_call (op : Account_b64_op) : M ModServ_b64.Account unit :=
  match op with
  | Deposit_b64 amount => ModServ_b64.deposit amount
  | Withdraw_b64 amount => ModServ_b64.withdraw amount
  end.

Definition Account_b64_finite (op : Account_b64_op) : Prop :=
  match op with
  | Deposit_b64 amount | Withdraw_b64 amount => is_finite amount = true
  end.

Inductive User_b64_op : Type :=
  AddBalance_b64 (amount : float) | DeductBalance_b64 (amount : float).

Definition User_b64_call (op : User_b64_op) : M Lession1_b64.User unit :=
  match op with
  | AddBalance_b64 amount => Lession1_b64.add_balance amount
  | DeductBalance_b64 amount => Lession1_b64.deduct_balance amount
  end.

Definition User_b64_finite (op : User_b64_op) : Prop :=
  match op with
  | AddBalance_b64 amount | DeductBalance_b64 amount => is_finite amount = true
  end.

(** The task after its payer's balance [b] was replaced by the float
    [b - cost]. *)
Definition ModServ_b64_charged {T} (cost : float) (t : ModServ_b64.MLTask T) :
    ModServ_b64.MLTask T :=
  ModServ_b64.set_account
    (ModServ_b64.set_balance
       (ModServ_b64.balance (ModServ_b64.account t) - cost)%float
       (ModServ_b64.account t)) t.

Definition Lession1_b64_charged {T} (cost : float) (t : Lession1_b64.MLTask T) :
    Lession1_b64.MLTask T :=
  Lession1_b64.set_user
    (Lession1_b64.set_balance
       (Lession1_b64.balance (Lession1_b64.user t) - cost)%float
       (Lession1_b64.user t)) t.

(** The specification of a float ([Prim2SF]): what it says of the sign, of
    NaN and of the infinities. *)
Definition sf_nonneg (x : spec_float) : bool :=
  match x with
  | S754_zero _ => true
  | S754_infinity s => negb s
  | S754_finite s _ _ => negb s
  | S754_nan => false
  end.

Definition sf_is_nan (x : spec_float) : bool :=
  match x with S754_nan => true | _ => false end.

Definition sf_is_infinity (x : spec_float) : bool :=
  match x with S754_infinity _ => true | _ => false end.

Definition sf_is_pos_infinity (x : spec_float) : bool :=
  match x with S754_infinity false => true | _ => false end.

(** The float is not NaN and has sign [s]. *)
Definition sf_signed (s : bool) (x : spec_float) : Prop :=
  match x with
  | S754_zero s' | S754_infinity s' | S754_finite s' _ _ => s' = s
  | S754_nan => False
  end.

(** The rational number that a finite float stands for. *)
Definition SF2Q (x : spec_float) : Q :=
  match x with
  | S754_finite s m e => (inject_Z (cond_Zopp s (Zpos m)) * 2 ^ e)%Q
  | _ => 0%Q
  end.

Definition F2Q (x : float) : Q := SF2Q (Prim2SF x).

(** [1.0] and [2.0 ** 53] in the specification. *)
Definition sf_one : spec_float := S754_finite false 4503599627370496 (-52).

Definition sf_two53 : spec_float := S754_finite false 4503599627370496 1.

(** * Properties *)

(** ** The methods on concrete objects *)

Example withdraw_insufficient_funds :
  ModServ.withdraw (5 # 1) (ModServ.Account_init 0 1 (3 # 1)) =
    (Raise (ValueError "Недостаточно средств на балансе"),
     ModServ.Account_init 0 1 (3 # 1)).
Proof. reflexivity. Qed.

Example deposit_three_and_a_half :
  ModServ.deposit (7 # 2) (ModServ.Account_init_default 0 1) =
    (Return tt, ModServ.Account_init 0 1 (7 # 2)).
Proof. reflexivity. Qed.

Example deposit_zero :
  ModServ.deposit 0 (ModServ.Account_init_default 0 1) =
    (Raise (ValueError "Сумма пополнения должна быть положительной"),
     ModServ.Account_init_default 0 1).
Proof. reflexivity. Qed.

Example predict_three_entries :
  ModServ.ExampleMLModel_predict ModServ.ExampleMLModel_init [∅; ∅; ∅] =
    [ {[ "prediction" := VInt 0; "confidence" := VFloat (95 # 100) ]};
      {[ "prediction" := VInt 1; "confidence" := VFloat (95 # 100) ]};
      {[ "prediction" := VInt 0; "confidence" := VFloat (95 # 100) ]} ].
Proof. reflexivity. Qed.

Example execute_with_empty_account :
  let t := Lession1.mkMLTask 1 (Lession1.User_init_default 1 "user" "pw") [∅]
             Lession1.ExampleMLModel_init in
  Lession1.execute t = (Raise (ValueError "Недостаточно средств на балансе"), t).
Proof. reflexivity. Qed.

Example get_user_history_without_key :
  let h := {| ModServ.history := [ {[ "task_id" := VInt 1 ]} ] |} in
  ModServ.get_user_history 7 h = (Raise (KeyError "user_id"), h).
Proof. reflexivity. Qed.

(** ** Comparisons on exact rationals *)

Lemma Qlt_bool_iff (x y : Q) : Qlt_bool x y = true <-> (x < y)%Q.
Proof. unfold Qlt_bool, Qlt. apply Z.ltb_lt. Qed.

Lemma Qlt_bool_ge (x y : Q) : Qlt_bool x y = false <-> (y <= x)%Q.
Proof. unfold Qlt_bool, Qle. apply Z.ltb_ge. Qed.

Lemma Qle_bool_gt (x y : Q) : Qle_bool x y = false <-> (y < x)%Q.
Proof. unfold Qle_bool, Qlt. apply Z.leb_gt. Qed.

(** ** What each balance operation does, case by case *)

Lemma deposit_run (amount : Q) (a : ModServ.Account) :
  ModServ.deposit amount a =
    if Qle_bool amount 0
    then (Raise (ValueError "Сумма пополнения должна быть положительной"), a)
    else (Return tt, ModServ.set_balance (ModServ.balance a + amount)%Q a).
Proof. unfold ModServ.deposit, bind, get. by destruct (Qle_bool amount 0). Qed.

Lemma withdraw_run (amount : Q) (a : ModServ.Account) :
  ModServ.withdraw amount a =
    if Qle_bool amount 0
    then (Raise (ValueError "Сумма списания должна быть положительной"), a)
    else if Qlt_bool (ModServ.balance a) amount
    then (Raise (ValueError "Недостаточно средств на балансе"), a)
    else (Return tt, ModServ.set_balance (ModServ.balance a - amount)%Q a).
Proof.
  unfold ModServ.withdraw, bind, get.
  destruct (Qle_bool amount 0); [done|].
  by destruct (Qlt_bool (ModServ.balance a) amount).
Qed.

Lemma add_balance_run (amount : Q) (u : Lession1.User) :
  Lession1.add_balance amount u =
    if Qlt_bool 0 amount
    then (Return tt, Lession1.set_balance (Lession1.balance u + amount)%Q u)
    else (Raise (ValueError "Сумма пополнения должна быть положительной"), u).
Proof. unfold Lession1.add_balance, bind, get. by destruct (Qlt_bool 0 amount). Qed.

Lemma deduct_balance_run (amount : Q) (u : Lession1.User) :
  Lession1.deduct_balance amount u =
    if Qle_bool amount (Lession1.balance u)
    then (Return tt, Lession1.set_balance (Lession1.balance u - amount)%Q u)
    else (Raise (ValueError "Недостаточно средств на балансе"), u).
Proof.
  unfold Lession1.deduct_balance, bind, get.
  by destruct (Qle_bool amount (Lession1.balance u)).
Qed.

(** ** Amounts must be positive *)

(** [deposit], [withdraw] and [add_balance] check the sign of the amount
    before anything else. *)
Lemma nonpositive_amount_rejected
    (amount : Q) (a : ModServ.Account) (u : Lession1.User) :
  (amount <= 0)%Q ->
  rejected (ModServ.deposit amount) a /\
  rejected (ModServ.withdraw amount) a /\
  rejected (Lession1.add_balance amount) u.
Proof.
  intros Hle. unfold rejected.
  rewrite deposit_run, withdraw_run, add_balance_run.
  assert (Qle_bool amount 0 = true) as -> by by apply Qle_bool_iff.
  assert (Qlt_bool 0 amount = false) as -> by by apply Qlt_bool_ge.
  repeat split; eauto.
Qed.

(** [deduct_balance] has no such check: on a non-negative balance, an
    amount that is not positive is subtracted like any other. *)
Lemma deduct_balance_nonpositive (amount : Q) (u : Lession1.User) :
  (amount <= 0)%Q -> User_ok u ->
  Lession1.deduct_balance amount u =
    (Return tt, Lession1.set_balance (Lession1.balance u - amount)%Q u).
Proof.
  unfold User_ok. intros Hle Hu. rewrite deduct_balance_run.
  assert (Qle_bool amount (Lession1.balance u) = true) as ->; [|done].
  apply Qle_bool_iff. lra.
Qed.

(** C2 at [User(1, "user", "pw").deduct_balance(-5.0)]: the call returns and
    the balance goes from [0] to [5], where the claim has a [ValueError] and
    an unchanged balance. *)
Theorem deduct_balance_takes_negative_amount :
  Lession1.deduct_balance (-5 # 1) (Lession1.User_init_default 1 "user" "pw") =
    (Return tt, Lession1.User_init 1 "user" "pw" (5 # 1) "user").
Proof. reflexivity. Qed.

(** ** Insufficient funds *)

(** C3. When the balance is below the amount, [withdraw] and
    [deduct_balance] raise [ValueError] and the balance, with the rest of
    the object, is unchanged. *)
Theorem insufficient_balance_rejected
    (amount : Q) (a : ModServ.Account) (u : Lession1.User) :
  (ModServ.balance a < amount)%Q -> (Lession1.balance u < amount)%Q ->
  rejected (ModServ.withdraw amount) a /\
  rejected (Lession1.deduct_balance amount) u.
Proof.
  intros Ha Hu. unfold rejected.
  rewrite withdraw_run, deduct_balance_run.
  assert (Qlt_bool (ModServ.balance a) amount = true) as -> by by apply Qlt_bool_iff.
  assert (Qle_bool amount (Lession1.balance u) = false) as -> by by apply Qle_bool_gt.
  destruct (Qle_bool amount 0); split; eauto.
Qed.

(** The theorem at [withdraw(5.0)] and [deduct_balance(5.0)] on a balance
    of [3.0]. *)
Lemma insufficient_balance_rejected_witness :
  rejected (ModServ.withdraw (5 # 1)) (ModServ.Account_init 0 1 (3 # 1)) /\
  rejected (Lession1.deduct_balance (5 # 1))
    (Lession1.User_init 1 "user" "pw" (3 # 1) "user").
Proof.
  apply (insufficient_balance_rejected (5 # 1)); vm_compute; reflexivity.
Defined.

(** ** Deposit and withdraw *)

(** C8. [deposit] and [withdraw] leave [user_id] and [created_at] as they
    were, whether they return or raise. *)
Theorem deposit_withdraw_touch_only_balance (amount : Q) (a : ModServ.Account) :
  ModServ.user_id (ModServ.deposit amount a).2 = ModServ.user_id a /\
  ModServ.created_at (ModServ.deposit amount a).2 = ModServ.created_at a /\
  ModServ.user_id (ModServ.withdraw amount a).2 = ModServ.user_id a /\
  ModServ.created_at (ModServ.withdraw amount a).2 = ModServ.created_at a.
Proof.
  rewrite deposit_run, withdraw_run.
  destruct (Qle_bool amount 0); [done|].
  by destruct (Qlt_bool (ModServ.balance a) amount).
Qed.

(** C9. From a non-negative balance [b], [deposit(x)] with [x > 0] returns,
    [withdraw(x)] on the account it leaves returns too, and the balance is
    again [b] (as a number); the other fields never changed. *)
Theorem deposit_then_withdraw (amount : Q) (a : ModServ.Account) :
  (0 <= ModServ.balance a)%Q -> (0 < amount)%Q ->
  exists a1 a2,
    ModServ.deposit amount a = (Return tt, a1) /\
    ModServ.withdraw amount a1 = (Return tt, a2) /\
    (ModServ.deposit amount ;; ModServ.withdraw amount) a = (Return tt, a2) /\
    (ModServ.balance a2 == ModServ.balance a)%Q /\
    ModServ.user_id a2 = ModServ.user_id a /\
    ModServ.created_at a2 = ModServ.created_at a.
Proof.
  intros Hb Hx.
  assert (Qle_bool amount 0 = false) as Hpos by by apply Qle_bool_gt.
  assert (Qlt_bool (ModServ.balance a + amount) amount = false) as Hfunds
    by (apply Qlt_bool_ge; lra).
  assert (ModServ.deposit amount a =
          (Return tt, ModServ.set_balance (ModServ.balance a + amount)%Q a)) as Hd
    by by rewrite deposit_run, Hpos.
  assert (ModServ.withdraw amount
            (ModServ.set_balance (ModServ.balance a + amount)%Q a) =
          (Return tt,
           ModServ.set_balance (ModServ.balance a + amount - amount)%Q a)) as Hw.
  { rewrite withdraw_run, Hpos. cbn [ModServ.balance ModServ.set_balance].
    by rewrite Hfunds. }
  eexists _, _. split; [exact Hd|]. split; [exact Hw|].
  split; [unfold bind; by rewrite Hd|].
  split; [|done]. cbn [ModServ.balance ModServ.set_balance]. ring.
Qed.

(** The theorem at [deposit(3.5)] then [withdraw(3.5)] on a balance of
    [3.0]. *)
Lemma deposit_then_withdraw_witness :
  exists a1 a2,
    ModServ.deposit (7 # 2) (ModServ.Account_init 0 1 (3 # 1)) = (Return tt, a1) /\
    ModServ.withdraw (7 # 2) a1 = (Return tt, a2) /\
    (ModServ.deposit (7 # 2) ;; ModServ.withdraw (7 # 2))
      (ModServ.Account_init 0 1 (3 # 1)) = (Return tt, a2) /\
    (ModServ.balance a2 == ModServ.balance (ModServ.Account_init 0 1 (3 # 1)))%Q /\
    ModServ.user_id a2 = ModServ.user_id (ModServ.Account_init 0 1 (3 # 1)) /\
    ModServ.created_at a2 = ModServ.created_at (ModServ.Account_init 0 1 (3 # 1)).
Proof.
  apply (deposit_then_withdraw (7 # 2) (ModServ.Account_init 0 1 (3 # 1)));
    vm_compute; [discriminate | reflexivity].
Defined.

(** ** The prediction stub *)

Lemma ModServ_predict_length (data : list Dict) :
  length (ModServ.ExampleMLModel_predict ModServ.ExampleMLModel_init data) = length data.
Proof. apply length_imap. Qed.

Lemma Lession1_predict_length (data : list Dict) :
  length (Lession1.ExampleMLModel_predict Lession1.ExampleMLModel_init data) = length data.
Proof. apply length_fmap. Qed.

(** C10. In either module [ExampleMLModel.predict] returns one entry per
    input entry. *)
Theorem predict_length (data : list Dict) :
  length (ModServ.ExampleMLModel_predict ModServ.ExampleMLModel_init data) = length data /\
  length (Lession1.ExampleMLModel_predict Lession1.ExampleMLModel_init data) = length data.
Proof. split; [apply ModServ_predict_length | apply Lession1_predict_length]. Qed.

(** The entries themselves: entry [i] is
    [{"prediction": i % 2, "confidence": 0.95}] in [src/mod_serv.py] and
    [{"prediction": 1}] in the duplicate module. *)
Lemma ModServ_predict_lookup (data : list Dict) (i : nat) :
  ModServ.ExampleMLModel_predict ModServ.ExampleMLModel_init data !! i =
    (fun _ => {[ "prediction" := VInt (Z.of_nat i mod 2);
                 "confidence" := VFloat (95 # 100) ]}) <$> data !! i.
Proof. apply list_lookup_imap. Qed.

Lemma Lession1_predict_lookup (data : list Dict) (i : nat) :
  Lession1.ExampleMLModel_predict Lession1.ExampleMLModel_init data !! i =
    (fun _ => {[ "prediction" := VInt 1 ]}) <$> data !! i.
Proof. apply list_lookup_fmap. Qed.

Lemma predict_entries_differ (i : nat) :
  ({[ "prediction" := VInt (Z.of_nat i mod 2);
      "confidence" := VFloat (95 # 100) ]} : Dict) ≠ {[ "prediction" := VInt 1 ]}.
Proof.
  intros Heq. apply (f_equal (fun d : Dict => d !! "confidence")) in Heq.
  rewrite lookup_insert_ne, lookup_singleton_eq in Heq by done.
  by rewrite lookup_singleton_ne in Heq.
Qed.

(** C7, as the code has it. The two stubs return lists of the same length,
    but no entry of one equals the entry of the other at the same index: the
    result lists are equal exactly when the input is empty. *)
Theorem predict_near_duplicates (data : list Dict) :
  length (ModServ.ExampleMLModel_predict ModServ.ExampleMLModel_init data) =
    length (Lession1.ExampleMLModel_predict Lession1.ExampleMLModel_init data) /\
  (forall (i : nat) (d d' : Dict),
      ModServ.ExampleMLModel_predict ModServ.ExampleMLModel_init data !! i = Some d ->
      Lession1.ExampleMLModel_predict Lession1.ExampleMLModel_init data !! i = Some d' ->
      d ≠ d') /\
  (ModServ.ExampleMLModel_predict ModServ.ExampleMLModel_init data =
     Lession1.ExampleMLModel_predict Lession1.ExampleMLModel_init data <-> data = []).
Proof.
  assert (forall (i : nat) (d d' : Dict),
      ModServ.ExampleMLModel_predict ModServ.ExampleMLModel_init data !! i = Some d ->
      Lession1.ExampleMLModel_predict Lession1.ExampleMLModel_init data !! i = Some d' ->
      d ≠ d') as Hdiff.
  { intros i d d'. rewrite ModServ_predict_lookup, Lession1_predict_lookup.
    destruct (data !! i); simpl; [|done].
    intros [= <-] [= <-]. apply predict_entries_differ. }
  split; [by rewrite ModServ_predict_length, Lession1_predict_length|].
  split; [exact Hdiff|]. split.
  - destruct data as [|x data]; [done|]. intros Heq.
    apply (f_equal (fun l : list Dict => l !! 0%nat)) in Heq.
    rewrite ModServ_predict_lookup, Lession1_predict_lookup in Heq.
    apply (inj Some) in Heq. by apply predict_entries_differ in Heq.
  - by intros ->.
Qed.

(** C7, as stated, fails on the one-entry input [[{}]]: [src/mod_serv.py]
    answers [[{"prediction": 0, "confidence": 0.95}]], the duplicate module
    [[{"prediction": 1}]]. *)
Lemma predict_results_differ :
  ModServ.ExampleMLModel_predict ModServ.ExampleMLModel_init [∅] =
    [ {[ "prediction" := VInt 0; "confidence" := VFloat (95 # 100) ]} ] /\
  Lession1.ExampleMLModel_predict Lession1.ExampleMLModel_init [∅] =
    [ {[ "prediction" := VInt 1 ]} ] /\
  ModServ.ExampleMLModel_predict ModServ.ExampleMLModel_init [∅] ≠
    Lession1.ExampleMLModel_predict Lession1.ExampleMLModel_init [∅].
Proof.
  split; [done|]. split; [done|].
  intros Heq. apply (f_equal (fun l : list Dict => l !! 0%nat)) in Heq.
  rewrite ModServ_predict_lookup, Lession1_predict_lookup in Heq.
  apply (inj Some) in Heq. by apply predict_entries_differ in Heq.
Qed.

(** ** Executing a task *)

Section Execute.
Context {T T' : Type} {model_T : ModServ.MLModel T} {model_T' : Lession1.MLModel T'}.

Lemma ModServ_execute_run (t : ModServ.MLTask T) :
  ModServ.execute t =
    if Qlt_bool (ModServ.balance (ModServ.account t)) 1
    then (Raise (ValueError "Недостаточно средств для выполнения задачи"), t)
    else (Return (ModServ.predict (ModServ.model t) (ModServ.data t)),
          ModServ_charged 1 t).
Proof.
  unfold ModServ.execute, bind, get, zoom, ModServ.TASK_COST.
  destruct (Qlt_bool (ModServ.balance (ModServ.account t)) 1) eqn:E; [done|].
  rewrite withdraw_run, E. reflexivity.
Qed.

Lemma Lession1_execute_run (t : Lession1.MLTask T') :
  Lession1.execute t =
    if Qle_bool 1 (Lession1.balance (Lession1.user t))
    then (Return (Lession1.predict (Lession1.model t) (Lession1.data t)),
          Lession1_charged 1 t)
    else (Raise (ValueError "Недостаточно средств на балансе"), t).
Proof.
  unfold Lession1.execute, bind, get, zoom.
  destruct (Qle_bool 1 (Lession1.balance (Lession1.user t))) eqn:E; [|done].
  rewrite deduct_balance_run, E. reflexivity.
Qed.

End Execute.

(** ** Histories *)

(** The history methods only ever store such records. *)
Lemma histories_well_keyed
    (now : datetime) (tid uid aid : Z) (input result : list Dict)
    (amount : Q) (description : string) (u : Lession1.User)
    (ph : ModServ.PredictionHistory) (th : ModServ.TransactionHistory)
    (th' : Lession1.TransactionHistory) :
  (well_keyed (ModServ.history ModServ.PredictionHistory_init) /\
   well_keyed (ModServ.transactions ModServ.TransactionHistory_init) /\
   well_keyed (Lession1.transactions Lession1.TransactionHistory_init)) /\
  (well_keyed (ModServ.history ph) ->
   well_keyed (ModServ.history (ModServ.add_prediction now tid uid input result ph).2)) /\
  (well_keyed (ModServ.transactions th) ->
   well_keyed
     (ModServ.transactions (ModServ.add_transaction now uid aid amount description th).2)) /\
  (well_keyed (Lession1.transactions th') ->
   well_keyed (Lession1.transactions (Lession1.add_transaction u amount description th').2)).
Proof.
  unfold well_keyed. split; [by repeat split; apply Forall_nil|].
  repeat split; intros Hwf; simpl; apply Forall_app; (split; [done|]);
    apply Forall_singleton; by eexists.
Qed.

Lemma list_comp_if_user_id {St} (uid : Z) (records : list Dict) (s : St) :
  well_keyed records ->
  list_comp_if (fun record =>
                  let! v := getitem record "user_id" in ret (py_eq_int v uid))
               records s =
    (Return (List.filter (has_user_id uid) records), s).
Proof.
  induction 1 as [|record records [v Hv] _ IH]; [done|].
  cbn [list_comp_if List.filter]. unfold has_user_id at 1.
  unfold bind, getitem, ret in *. rewrite Hv, IH.
  by destruct (py_eq_int v uid).
Qed.

(** Without the key the comprehension stops with [KeyError]. *)
Lemma list_comp_if_KeyError {St} (uid : Z) (record : Dict) (records : list Dict) (s : St) :
  record !! "user_id" = None ->
  list_comp_if (fun record =>
                  let! v := getitem record "user_id" in ret (py_eq_int v uid))
               (record :: records) s =
    (Raise (KeyError "user_id"), s).
Proof.
  intros Hnone. cbn [list_comp_if]. unfold bind, getitem, raise. by rewrite Hnone.
Qed.

(** C5. On a history whose records all carry a ["user_id"] (all that the
    history methods store), [get_user_history] and both
    [get_user_transactions] return the stored records whose ["user_id"]
    equals the id asked for, in the order of the stored list, and leave the
    history as it was. *)
Theorem user_records_filtered
    (uid : Z) (u : Lession1.User)
    (ph : ModServ.PredictionHistory) (th : ModServ.TransactionHistory)
    (th' : Lession1.TransactionHistory) :
  well_keyed (ModServ.history ph) ->
  well_keyed (ModServ.transactions th) ->
  well_keyed (Lession1.transactions th') ->
  ModServ.get_user_history uid ph =
    (Return (List.filter (has_user_id uid) (ModServ.history ph)), ph) /\
  ModServ.get_user_transactions uid th =
    (Return (List.filter (has_user_id uid) (ModServ.transactions th)), th) /\
  Lession1.get_user_transactions u th' =
    (Return (List.filter (has_user_id (Lession1.user_id u)) (Lession1.transactions th')),
     th').
Proof.
  intros Hph Hth Hth'.
  unfold ModServ.get_user_history, ModServ.get_user_transactions,
    Lession1.get_user_transactions.
  unfold bind at 1 3 5. unfold get.
  by rewrite !list_comp_if_user_id.
Qed.

(** C6. [add_prediction] and both [add_transaction] return, and the stored
    list after the call is the stored list before it followed by the one new
    record: one longer, and with every earlier record at its index. *)
Theorem history_append_only
    (now : datetime) (tid uid aid : Z) (input result : list Dict)
    (amount : Q) (description : string) (u : Lession1.User)
    (ph : ModServ.PredictionHistory) (th : ModServ.TransactionHistory)
    (th' : Lession1.TransactionHistory) :
  let ph1 := ModServ.add_prediction now tid uid input result ph in
  let th1 := ModServ.add_transaction now uid aid amount description th in
  let th1' := Lession1.add_transaction u amount description th' in
  (ph1.1 = Return tt /\
   ModServ.history ph1.2 =
     ModServ.history ph ++ [ModServ.prediction_record now tid uid input result] /\
   length (ModServ.history ph1.2) = S (length (ModServ.history ph)) /\
   (forall (i : nat) (record : Dict),
       ModServ.history ph !! i = Some record ->
       ModServ.history ph1.2 !! i = Some record)) /\
  (th1.1 = Return tt /\
   ModServ.transactions th1.2 =
     ModServ.transactions th ++
       [ModServ.transaction_record now uid aid amount description] /\
   length (ModServ.transactions th1.2) = S (length (ModServ.transactions th)) /\
   (forall (i : nat) (record : Dict),
       ModServ.transactions th !! i = Some record ->
       ModServ.transactions th1.2 !! i = Some record)) /\
  (th1'.1 = Return tt /\
   Lession1.transactions th1'.2 =
     Lession1.transactions th' ++ [Lession1.transaction_record u amount description] /\
   length (Lession1.transactions th1'.2) = S (length (Lession1.transactions th')) /\
   (forall (i : nat) (record : Dict),
       Lession1.transactions th' !! i = Some record ->
       Lession1.transactions th1'.2 !! i = Some record)).
Proof.
  cbn. repeat split; try (rewrite length_app; simpl; lia);
    intros i record Hi; by apply lookup_app_l_Some.
Qed.

(** The theorem on histories filled through [add_prediction] and
    [add_transaction] for the users [7] and [8]. *)
Lemma user_records_filtered_witness :
  let ph := (ModServ.add_prediction 30 3 7 [] []
               (ModServ.add_prediction 20 2 8 [∅] [∅]
                  (ModServ.add_prediction 10 1 7 [] []
                     ModServ.PredictionHistory_init).2).2).2 in
  let th := (ModServ.add_transaction 20 8 2 (1 # 2) "deposit"
               (ModServ.add_transaction 10 7 1 (3 # 1) "deposit"
                  ModServ.TransactionHistory_init).2).2 in
  let u7 := Lession1.User_init_default 7 "user" "pw" in
  let u8 := Lession1.User_init_default 8 "other" "pw" in
  let th' := (Lession1.add_transaction u7 (2 # 1) "second"
                (Lession1.add_transaction u8 (1 # 1) "other"
                   (Lession1.add_transaction u7 (1 # 1) "first"
                      Lession1.TransactionHistory_init).2).2).2 in
  ModServ.get_user_history 7 ph =
    (Return [ModServ.prediction_record 10 1 7 [] [];
             ModServ.prediction_record 30 3 7 [] []], ph) /\
  ModServ.get_user_transactions 7 th =
    (Return [ModServ.transaction_record 10 7 1 (3 # 1) "deposit"], th) /\
  Lession1.get_user_transactions u7 th' =
    (Return [Lession1.transaction_record u7 (1 # 1) "first";
             Lession1.transaction_record u7 (2 # 1) "second"], th').
Proof.
  intros ph th u7 u8 th'.
  apply (user_records_filtered 7 u7 ph th th');
    unfold well_keyed; repeat constructor; vm_compute; by eexists.
Defined.

(** * Further properties of the code *)

(** ** The prediction stubs never read their input *)

(** X1. In either module the answer of [ExampleMLModel.predict] depends on
    the number of input entries and on nothing else: two inputs get the same
    answer exactly when they have the same length. *)
Theorem predict_reads_only_the_length (data data' : list Dict) :
  (ModServ.ExampleMLModel_predict ModServ.ExampleMLModel_init data =
     ModServ.ExampleMLModel_predict ModServ.ExampleMLModel_init data'
   <-> length data = length data') /\
  (Lession1.ExampleMLModel_predict Lession1.ExampleMLModel_init data =
     Lession1.ExampleMLModel_predict Lession1.ExampleMLModel_init data'
   <-> length data = length data').
Proof.
  assert (forall i : nat, length data = length data' ->
            is_Some (data !! i) <-> is_Some (data' !! i)) as Hsome.
  { intros i Hlen. by rewrite !lookup_lt_is_Some, Hlen. }
  split; split.
  - intros Heq. by rewrite <- (ModServ_predict_length data), Heq, ModServ_predict_length.
  - intros Hlen. apply list_eq. intros i. rewrite !ModServ_predict_lookup.
    specialize (Hsome i Hlen).
    destruct (data !! i), (data' !! i); try done.
    + by destruct (proj1 Hsome) as [? ?]; [eexists|].
    + by destruct (proj2 Hsome) as [? ?]; [eexists|].
  - intros Heq. by rewrite <- (Lession1_predict_length data), Heq, Lession1_predict_length.
  - intros Hlen. apply list_eq. intros i. rewrite !Lession1_predict_lookup.
    specialize (Hsome i Hlen).
    destruct (data !! i), (data' !! i); try done.
    + by destruct (proj1 Hsome) as [? ?]; [eexists|].
    + by destruct (proj2 Hsome) as [? ?]; [eexists|].
Qed.

(** ** Histories: missing keys, and reading back what was added *)

Lemma well_keyed_or_unkeyed (records : list Dict) :
  well_keyed records \/ some_unkeyed records.
Proof.
  unfold well_keyed, some_unkeyed.
  induction records as [|record records [IH|(r & Hr & Hnone)]].
  - left. apply Forall_nil_2.
  - destruct (record !! "user_id") as [v|] eqn:Hv.
    + left. apply Forall_cons. split; [by eexists | done].
    + right. exists record. split; [apply list_elem_of_here | done].
  - right. exists r. split; [by apply list_elem_of_further | done].
Qed.

Lemma list_comp_if_unkeyed {St} (uid : Z) (records : list Dict) (s : St) :
  some_unkeyed records ->
  list_comp_if (fun record =>
                  let! v := getitem record "user_id" in ret (py_eq_int v uid))
               records s =
    (Raise (KeyError "user_id"), s).
Proof.
  intros (r & Hr & Hnone).
  induction records as [|record records IH]; [by apply elem_of_nil in Hr|].
  destruct (record !! "user_id") as [v|] eqn:Hv.
  - apply elem_of_cons in Hr as [->|Hr]; [congruence|].
    cbn [list_comp_if]. unfold bind, getitem, ret in *. by rewrite Hv, IH.
  - by apply list_comp_if_KeyError.
Qed.

(** X2. [get_user_history] and both [get_user_transactions] raise
    [KeyError('user_id')] exactly when some stored record, at whatever
    position, has no ["user_id"] key; the history is unchanged. *)
Theorem KeyError_iff_unkeyed_record
    (uid : Z) (u : Lession1.User)
    (ph : ModServ.PredictionHistory) (th : ModServ.TransactionHistory)
    (th' : Lession1.TransactionHistory) :
  (some_unkeyed (ModServ.history ph) <->
   ModServ.get_user_history uid ph = (Raise (KeyError "user_id"), ph)) /\
  (some_unkeyed (ModServ.transactions th) <->
   ModServ.get_user_transactions uid th = (Raise (KeyError "user_id"), th)) /\
  (some_unkeyed (Lession1.transactions th') <->
   Lession1.get_user_transactions u th' = (Raise (KeyError "user_id"), th')).
Proof.
  unfold ModServ.get_user_history, ModServ.get_user_transactions,
    Lession1.get_user_transactions.
  unfold bind at 1 3 5. unfold get.
  repeat split; try apply list_comp_if_unkeyed.
  - destruct (well_keyed_or_unkeyed (ModServ.history ph)) as [Hwf|]; [|done].
    by rewrite list_comp_if_user_id.
  - destruct (well_keyed_or_unkeyed (ModServ.transactions th)) as [Hwf|]; [|done].
    by rewrite list_comp_if_user_id.
  - destruct (well_keyed_or_unkeyed (Lession1.transactions th')) as [Hwf|]; [|done].
    by rewrite list_comp_if_user_id.
Qed.

Lemma has_user_id_prediction_record
    (now : datetime) (tid uid uid' : Z) (input result : list Dict) :
  has_user_id uid' (ModServ.prediction_record now tid uid input result) = (uid =? uid').
Proof. reflexivity. Qed.

Lemma has_user_id_ModServ_transaction_record
    (now : datetime) (uid aid uid' : Z) (amount : Q) (description : string) :
  has_user_id uid' (ModServ.transaction_record now uid aid amount description) =
    (uid =? uid').
Proof. reflexivity. Qed.

Lemma has_user_id_Lession1_transaction_record
    (u : Lession1.User) (uid' : Z) (amount : Q) (description : string) :
  has_user_id uid' (Lession1.transaction_record u amount description) =
    (Lession1.user_id u =? uid').
Proof. reflexivity. Qed.

Lemma filter_snoc_user_id (uid uid' : Z) (records : list Dict) (record : Dict) :
  has_user_id uid' record = (uid =? uid') ->
  List.filter (has_user_id uid') (records ++ [record]) =
    List.filter (has_user_id uid') records ++ (if uid =? uid' then [record] else []).
Proof. intros Hrec. rewrite List.filter_app. simpl. by rewrite Hrec. Qed.

Lemma get_user_history_run (uid : Z) (ph : ModServ.PredictionHistory) :
  well_keyed (ModServ.history ph) ->
  ModServ.get_user_history uid ph =
    (Return (List.filter (has_user_id uid) (ModServ.history ph)), ph).
Proof.
  intros Hwf. unfold ModServ.get_user_history, bind at 1. unfold get.
  by apply list_comp_if_user_id.
Qed.

Lemma ModServ_get_user_transactions_run (uid : Z) (th : ModServ.TransactionHistory) :
  well_keyed (ModServ.transactions th) ->
  ModServ.get_user_transactions uid th =
    (Return (List.filter (has_user_id uid) (ModServ.transactions th)), th).
Proof.
  intros Hwf. unfold ModServ.get_user_transactions, bind at 1. unfold get.
  by apply list_comp_if_user_id.
Qed.

Lemma Lession1_get_user_transactions_run
    (u : Lession1.User) (th : Lession1.TransactionHistory) :
  well_keyed (Lession1.transactions th) ->
  Lession1.get_user_transactions u th =
    (Return (List.filter (has_user_id (Lession1.user_id u)) (Lession1.transactions th)),
     th).
Proof.
  intros Hwf. unfold Lession1.get_user_transactions, bind at 1. unfold get.
  by apply list_comp_if_user_id.
Qed.

(** X3. Reading back after an addition: on a history whose records carry
    their ["user_id"], what [get_user_history] (resp.
    [get_user_transactions]) returns for a user after an [add_prediction]
    (resp. [add_transaction]) is what it returned before, followed by the new
    record when the record was added for that user id, and nothing more
    when it was added for another. *)
Theorem get_after_add
    (now : datetime) (tid uid aid uid' : Z) (input result : list Dict)
    (amount : Q) (description : string) (u u' : Lession1.User)
    (ph : ModServ.PredictionHistory) (th : ModServ.TransactionHistory)
    (th' : Lession1.TransactionHistory) :
  well_keyed (ModServ.history ph) ->
  well_keyed (ModServ.transactions th) ->
  well_keyed (Lession1.transactions th') ->
  let ph1 := (ModServ.add_prediction now tid uid input result ph).2 in
  let th1 := (ModServ.add_transaction now uid aid amount description th).2 in
  let th1' := (Lession1.add_transaction u amount description th').2 in
  (exists before,
      ModServ.get_user_history uid' ph = (Return before, ph) /\
      ModServ.get_user_history uid' ph1 =
        (Return (before ++
                 if uid =? uid'
                 then [ModServ.prediction_record now tid uid input result] else []),
         ph1)) /\
  (exists before,
      ModServ.get_user_transactions uid' th = (Return before, th) /\
      ModServ.get_user_transactions uid' th1 =
        (Return (before ++
                 if uid =? uid'
                 then [ModServ.transaction_record now uid aid amount description]
                 else []),
         th1)) /\
  (exists before,
      Lession1.get_user_transactions u' th' = (Return before, th') /\
      Lession1.get_user_transactions u' th1' =
        (Return (before ++
                 if Lession1.user_id u =? Lession1.user_id u'
                 then [Lession1.transaction_record u amount description] else []),
         th1')).
Proof.
  intros Hph Hth Hth' ph1 th1 th1'.
  destruct (histories_well_keyed now tid uid aid input result amount description
              u ph th th') as (_ & Hph1 & Hth1 & Hth1').
  specialize (Hph1 Hph). specialize (Hth1 Hth). specialize (Hth1' Hth').
  rewrite !get_user_history_run, !ModServ_get_user_transactions_run,
    !Lession1_get_user_transactions_run by done.
  repeat split; eexists; (split; [done|]); do 2 f_equal;
    by apply filter_snoc_user_id.
Qed.

(** The theorem on a history holding one prediction (one transaction) of
    user [7], to which one of user [8] is added: read back for [8] and,
    in the duplicate module, for [7]. *)
Lemma get_after_add_witness :
  let ph := (ModServ.add_prediction 10 1 7 [] [] ModServ.PredictionHistory_init).2 in
  let th := (ModServ.add_transaction 10 7 1 (3 # 1) "deposit"
               ModServ.TransactionHistory_init).2 in
  let u7 := Lession1.User_init_default 7 "user" "pw" in
  let u8 := Lession1.User_init_default 8 "other" "pw" in
  let th' := (Lession1.add_transaction u7 (1 # 1) "first"
                Lession1.TransactionHistory_init).2 in
  let ph1 := (ModServ.add_prediction 20 2 8 [∅] [∅] ph).2 in
  let th1 := (ModServ.add_transaction 20 8 2 (1 # 2) "charge" th).2 in
  let th1' := (Lession1.add_transaction u8 (1 # 2) "charge" th').2 in
  (exists before,
      ModServ.get_user_history 8 ph = (Return before, ph) /\
      ModServ.get_user_history 8 ph1 =
        (Return (before ++ [ModServ.prediction_record 20 2 8 [∅] [∅]]), ph1)) /\
  (exists before,
      ModServ.get_user_transactions 8 th = (Return before, th) /\
      ModServ.get_user_transactions 8 th1 =
        (Return (before ++ [ModServ.transaction_record 20 8 2 (1 # 2) "charge"]),
         th1)) /\
  (exists before,
      Lession1.get_user_transactions u7 th' = (Return before, th') /\
      Lession1.get_user_transactions u7 th1' = (Return (before ++ []), th1')).
Proof.
  intros ph th u7 u8 th' ph1 th1 th1'.
  apply (get_after_add 20 2 8 2 8 [∅] [∅] (1 # 2) "charge" u8 u7 ph th th');
    unfold well_keyed; repeat constructor; vm_compute; by eexists.
Defined.

(** ** Balances over sequences of calls *)

Lemma Account_call_bounds (op : Account_op) (a : ModServ.Account) :
  (ModServ.balance a - withdrawals_asked [op]
     <= ModServ.balance (Account_call op a).2
     <= ModServ.balance a + deposits_asked [op])%Q.
Proof.
  destruct op as [amount|amount]; cbn [Account_call deposits_asked withdrawals_asked foldr].
  - rewrite deposit_run. destruct (Qle_bool amount 0) eqn:Hle.
    + assert (Qlt_bool 0 amount = false) as ->
        by (apply Qlt_bool_ge; by apply Qle_bool_iff).
      cbn [snd ModServ.balance ModServ.set_balance]. split; lra.
    + apply Qle_bool_gt in Hle.
      assert (Qlt_bool 0 amount = true) as -> by by apply Qlt_bool_iff.
      cbn [snd ModServ.balance ModServ.set_balance]. split; lra.
  - rewrite withdraw_run. destruct (Qle_bool amount 0) eqn:Hle.
    + assert (Qlt_bool 0 amount = false) as ->
        by (apply Qlt_bool_ge; by apply Qle_bool_iff).
      cbn [snd ModServ.balance ModServ.set_balance]. split; lra.
    + assert (Qlt_bool 0 amount = true) as Hpos
        by (apply Qlt_bool_iff; by apply Qle_bool_gt).
      rewrite Hpos. apply Qlt_bool_iff in Hpos.
      destruct (Qlt_bool (ModServ.balance a) amount);
        cbn [snd ModServ.balance ModServ.set_balance]; split; lra.
Qed.

Lemma deposits_asked_cons (op : Account_op) (ops : list Account_op) :
  (deposits_asked (op :: ops) == deposits_asked [op] + deposits_asked ops)%Q.
Proof.
  unfold deposits_asked.
  destruct op as [amount|amount]; cbn [foldr];
    [destruct (Qlt_bool 0 amount)|]; ring.
Qed.

Lemma withdrawals_asked_cons (op : Account_op) (ops : list Account_op) :
  (withdrawals_asked (op :: ops) == withdrawals_asked [op] + withdrawals_asked ops)%Q.
Proof.
  unfold withdrawals_asked.
  destruct op as [amount|amount]; cbn [foldr];
    [|destruct (Qlt_bool 0 amount)]; ring.
Qed.

(** X4. No sequence of [deposit] and [withdraw] calls, failed ones included,
    credits an account with more than the positive amounts it was asked to
    deposit, or debits it by more than the positive amounts it was asked to
    withdraw. *)
Theorem balance_moves_within_what_was_asked
    (ops : list Account_op) (a : ModServ.Account) :
  (ModServ.balance a - withdrawals_asked ops
     <= ModServ.balance (run_all Account_call ops a)
     <= ModServ.balance a + deposits_asked ops)%Q.
Proof.
  revert a. induction ops as [|op ops IH]; intros a.
  - cbn. split; lra.
  - change (run_all Account_call (op :: ops) a)
      with (run_all Account_call ops (Account_call op a).2).
    specialize (IH (Account_call op a).2).
    pose proof (Account_call_bounds op a) as Hop.
    rewrite deposits_asked_cons, withdrawals_asked_cons. split; lra.
Qed.

(** Case analysis on the comparisons of a goal, each case getting the
    comparison as an (in)equality of rationals; impossible cases go. *)
Ltac q_simpl :=
  cbn [fst snd ModServ.balance ModServ.set_balance
       Lession1.balance Lession1.set_balance].

Ltac q_cases :=
  repeat (q_simpl;
          match goal with
          | |- context [Qle_bool ?x ?y] =>
              let E := fresh "E" in
              destruct (Qle_bool x y) eqn:E;
              [apply Qle_bool_iff in E | apply Qle_bool_gt in E];
              try (exfalso; lra)
          | |- context [Qlt_bool ?x ?y] =>
              let E := fresh "E" in
              destruct (Qlt_bool x y) eqn:E;
              [apply Qlt_bool_iff in E | apply Qlt_bool_ge in E];
              try (exfalso; lra)
          end);
  q_simpl.

(** X5. Deposits add up: two deposits of positive amounts both return and
    leave the balance that one deposit of the sum leaves, in whichever order
    they are made. *)
Theorem deposits_add_up (x y : Q) (a : ModServ.Account) :
  (0 < x)%Q -> (0 < y)%Q ->
  ((ModServ.deposit x ;; ModServ.deposit y) a).1 = Return tt /\
  (ModServ.deposit (x + y) a).1 = Return tt /\
  (ModServ.balance ((ModServ.deposit x ;; ModServ.deposit y) a).2
     == ModServ.balance (ModServ.deposit (x + y) a).2)%Q /\
  (ModServ.balance ((ModServ.deposit x ;; ModServ.deposit y) a).2
     == ModServ.balance ((ModServ.deposit y ;; ModServ.deposit x) a).2)%Q.
Proof.
  intros Hx Hy. unfold bind. rewrite !deposit_run.
  q_cases. rewrite !deposit_run. q_cases.
  repeat split; ring.
Qed.

(** The theorem at [deposit(1.5)] and [deposit(2.0)] on a balance of
    [3.0]. *)
Lemma deposits_add_up_witness :
  let a := ModServ.Account_init 0 1 (3 # 1) in
  ((ModServ.deposit (3 # 2) ;; ModServ.deposit (2 # 1)) a).1 = Return tt /\
  (ModServ.deposit ((3 # 2) + (2 # 1)) a).1 = Return tt /\
  (ModServ.balance ((ModServ.deposit (3 # 2) ;; ModServ.deposit (2 # 1)) a).2
     == ModServ.balance (ModServ.deposit ((3 # 2) + (2 # 1)) a).2)%Q /\
  (ModServ.balance ((ModServ.deposit (3 # 2) ;; ModServ.deposit (2 # 1)) a).2
     == ModServ.balance ((ModServ.deposit (2 # 1) ;; ModServ.deposit (3 # 2)) a).2)%Q.
Proof.
  intros a. apply (deposits_add_up (3 # 2) (2 # 1) a); reflexivity.
Defined.

(** X6. Withdrawals add up, but are not undone: for positive amounts [x]
    and [y], [withdraw(x)] then [withdraw(y)] both return exactly when
    [withdraw(x + y)] returns, that is when [x + y] is within the balance,
    and they leave the same balance; when [x + y] exceeds the balance both
    ways end in [ValueError], and if [x] alone was within the balance it
    stays withdrawn. *)
Theorem withdrawals_add_up (x y : Q) (a : ModServ.Account) :
  (0 < x)%Q -> (0 < y)%Q ->
  ((x + y <= ModServ.balance a)%Q ->
     ((ModServ.withdraw x ;; ModServ.withdraw y) a).1 = Return tt /\
     (ModServ.withdraw (x + y) a).1 = Return tt /\
     (ModServ.balance ((ModServ.withdraw x ;; ModServ.withdraw y) a).2
        == ModServ.balance (ModServ.withdraw (x + y) a).2)%Q) /\
  ((ModServ.balance a < x + y)%Q ->
     ((ModServ.withdraw x ;; ModServ.withdraw y) a).1 =
       Raise (ValueError "Недостаточно средств на балансе") /\
     ModServ.withdraw (x + y) a =
       (Raise (ValueError "Недостаточно средств на балансе"), a) /\
     ((x <= ModServ.balance a)%Q ->
        ModServ.balance ((ModServ.withdraw x ;; ModServ.withdraw y) a).2 =
          (ModServ.balance a - x)%Q)).
Proof.
  intros Hx Hy. unfold bind. rewrite !withdraw_run. split; intros Hb.
  - q_cases. rewrite !withdraw_run. q_cases. repeat split; ring.
  - q_cases.
    + repeat split. intros Hle. exfalso. lra.
    + rewrite !withdraw_run. q_cases. by repeat split.
Qed.

(** The theorem at [withdraw(2.0)] and [withdraw(1.5)] on a balance of
    [3.0]: the second call fails and [1.0] is left. *)
Lemma withdrawals_add_up_witness :
  let a := ModServ.Account_init 0 1 (3 # 1) in
  ((ModServ.withdraw (2 # 1) ;; ModServ.withdraw (3 # 2)) a).1 =
    Raise (ValueError "Недостаточно средств на балансе") /\
  ModServ.withdraw ((2 # 1) + (3 # 2)) a =
    (Raise (ValueError "Недостаточно средств на балансе"), a) /\
  ModServ.balance ((ModServ.withdraw (2 # 1) ;; ModServ.withdraw (3 # 2)) a).2 =
    (3 - 2)%Q.
Proof.
  intros a.
  destruct (withdrawals_add_up (2 # 1) (3 # 2) a) as [_ Hfail]; [reflexivity..|].
  destruct Hfail as (Hseq & Hone & Hleft); [reflexivity|].
  split; [exact Hseq|]. split; [exact Hone|]. apply Hleft. vm_compute. discriminate.
Defined.

(** ** The two modules side by side *)

(** X7. On equal balances, [Account.deposit] and [User.add_balance] answer
    alike for every amount, and [Account.withdraw] and [User.deduct_balance]
    answer alike for every positive amount: the same return or the same
    [ValueError] with the same message, and equal balances afterwards. *)
Theorem balance_methods_agree (amount : Q) (a : ModServ.Account) (u : Lession1.User) :
  (ModServ.balance a == Lession1.balance u)%Q ->
  ((ModServ.deposit amount a).1 = (Lession1.add_balance amount u).1 /\
   (ModServ.balance (ModServ.deposit amount a).2
      == Lession1.balance (Lession1.add_balance amount u).2)%Q) /\
  ((0 < amount)%Q ->
   (ModServ.withdraw amount a).1 = (Lession1.deduct_balance amount u).1 /\
   (ModServ.balance (ModServ.withdraw amount a).2
      == Lession1.balance (Lession1.deduct_balance amount u).2)%Q).
Proof.
  intros Hb. rewrite deposit_run, add_balance_run, withdraw_run, deduct_balance_run.
  split; [|intros Hpos]; q_cases; (split; [done|lra]).
Qed.

(** The theorem on an account and a user that both hold [3.0], for the
    amount [5.0]. *)
Lemma balance_methods_agree_witness :
  let a := ModServ.Account_init 0 1 (3 # 1) in
  let u := Lession1.User_init 1 "user" "pw" (3 # 1) "user" in
  ((ModServ.deposit (5 # 1) a).1 = (Lession1.add_balance (5 # 1) u).1 /\
   (ModServ.balance (ModServ.deposit (5 # 1) a).2
      == Lession1.balance (Lession1.add_balance (5 # 1) u).2)%Q) /\
  (ModServ.withdraw (5 # 1) a).1 = (Lession1.deduct_balance (5 # 1) u).1 /\
  (ModServ.balance (ModServ.withdraw (5 # 1) a).2
     == Lession1.balance (Lession1.deduct_balance (5 # 1) u).2)%Q.
Proof.
  intros a u.
  destruct (balance_methods_agree (5 # 1) a u) as [Hd Hw]; [reflexivity|].
  split; [exact Hd|]. apply Hw. reflexivity.
Defined.

(** ** Paying for several tasks *)

Lemma inject_Z_of_nat_S (k : nat) :
  (inject_Z (Z.of_nat (S k)) == inject_Z (Z.of_nat k) + 1)%Q.
Proof. rewrite Nat2Z.inj_succ. unfold Z.succ. by rewrite inject_Z_plus. Qed.

Lemma times_S {St A} (n : nat) (c : M St A) (s : St) :
  times (S n) c s =
    match c s with
    | (Return _, s') => times n c s'
    | (Raise e, s') => (Raise e, s')
    end.
Proof. reflexivity. Qed.

Lemma inject_Z_of_nat_nonneg (k : nat) : (0 <= inject_Z (Z.of_nat k))%Q.
Proof. unfold Qle. simpl. lia. Qed.

Section ExecuteTimes.
Context {T T' : Type} {model_T : ModServ.MLModel T} {model_T' : Lession1.MLModel T'}.

Lemma ModServ_times_execute (k : nat) (t : ModServ.MLTask T) :
  ((inject_Z (Z.of_nat k) <= ModServ.balance (ModServ.account t))%Q ->
     (times k ModServ.execute t).1 = Return tt /\
     (ModServ.balance (ModServ.account (times k ModServ.execute t).2)
        == ModServ.balance (ModServ.account t) - inject_Z (Z.of_nat k))%Q) /\
  ((0 <= ModServ.balance (ModServ.account t) < inject_Z (Z.of_nat k))%Q ->
     (times k ModServ.execute t).1 =
       Raise (ValueError "Недостаточно средств для выполнения задачи") /\
     (0 <= ModServ.balance (ModServ.account (times k ModServ.execute t).2) < 1)%Q).
Proof.
  revert t. induction k as [|k IH]; intros t.
  - cbn [times]. unfold ret. cbn [fst snd].
    change (inject_Z (Z.of_nat 0)) with 0%Q.
    split; [intros _; split; [done|ring] | intros [? ?]; exfalso; lra].
  - pose proof (inject_Z_of_nat_S k) as HS.
    pose proof (inject_Z_of_nat_nonneg k) as Hk.
    rewrite !times_S, !ModServ_execute_run.
    destruct (Qlt_bool (ModServ.balance (ModServ.account t)) 1) eqn:E.
    + apply Qlt_bool_iff in E. split; [intros Hb; exfalso; lra|].
      intros [H0 _]. cbn [fst snd]. by repeat split.
    + apply Qlt_bool_ge in E. destruct (IH (ModServ_charged 1 t)) as [IHok IHfail].
      cbn [ModServ_charged ModServ.set_account ModServ.account ModServ.balance
             ModServ.set_balance] in IHok, IHfail.
      split.
      * intros Hb. destruct IHok as [-> ->]; [lra|]. split; [done|lra].
      * intros [H0 Hb]. apply IHfail. split; lra.
Qed.

Lemma Lession1_times_execute (k : nat) (t : Lession1.MLTask T') :
  ((inject_Z (Z.of_nat k) <= Lession1.balance (Lession1.user t))%Q ->
     (times k Lession1.execute t).1 = Return tt /\
     (Lession1.balance (Lession1.user (times k Lession1.execute t).2)
        == Lession1.balance (Lession1.user t) - inject_Z (Z.of_nat k))%Q) /\
  ((0 <= Lession1.balance (Lession1.user t) < inject_Z (Z.of_nat k))%Q ->
     (times k Lession1.execute t).1 =
       Raise (ValueError "Недостаточно средств на балансе") /\
     (0 <= Lession1.balance (Lession1.user (times k Lession1.execute t).2) < 1)%Q).
Proof.
  revert t. induction k as [|k IH]; intros t.
  - cbn [times]. unfold ret. cbn [fst snd].
    change (inject_Z (Z.of_nat 0)) with 0%Q.
    split; [intros _; split; [done|ring] | intros [? ?]; exfalso; lra].
  - pose proof (inject_Z_of_nat_S k) as HS.
    pose proof (inject_Z_of_nat_nonneg k) as Hk.
    rewrite !times_S, !Lession1_execute_run.
    destruct (Qle_bool 1 (Lession1.balance (Lession1.user t))) eqn:E.
    + apply Qle_bool_iff in E. destruct (IH (Lession1_charged 1 t)) as [IHok IHfail].
      cbn [Lession1_charged Lession1.set_user Lession1.user Lession1.balance
             Lession1.set_balance] in IHok, IHfail.
      split.
      * intros Hb. destruct IHok as [-> ->]; [lra|]. split; [done|lra].
      * intros [H0 Hb]. apply IHfail. split; lra.
    + apply Qle_bool_gt in E. split; [intros Hb; exfalso; lra|].
      intros [H0 _]. cbn [fst snd]. by repeat split.
Qed.

(** X9. A balance pays for as many tasks as it has whole units: [k] calls
    of [execute] in a row all return when the payer holds at least [k], and
    the balance is then down by [k]; with a non-negative balance below [k]
    one of them raises [ValueError], and less than [1.0] is left. *)
Theorem execute_times
    (k : nat) (t : ModServ.MLTask T) (t' : Lession1.MLTask T') :
  ((inject_Z (Z.of_nat k) <= ModServ.balance (ModServ.account t))%Q ->
     (times k ModServ.execute t).1 = Return tt /\
     (ModServ.balance (ModServ.account (times k ModServ.execute t).2)
        == ModServ.balance (ModServ.account t) - inject_Z (Z.of_nat k))%Q) /\
  ((0 <= ModServ.balance (ModServ.account t) < inject_Z (Z.of_nat k))%Q ->
     (times k ModServ.execute t).1 =
       Raise (ValueError "Недостаточно средств для выполнения задачи") /\
     (0 <= ModServ.balance (ModServ.account (times k ModServ.execute t).2) < 1)%Q) /\
  ((inject_Z (Z.of_nat k) <= Lession1.balance (Lession1.user t'))%Q ->
     (times k Lession1.execute t').1 = Return tt /\
     (Lession1.balance (Lession1.user (times k Lession1.execute t').2)
        == Lession1.balance (Lession1.user t') - inject_Z (Z.of_nat k))%Q) /\
  ((0 <= Lession1.balance (Lession1.user t') < inject_Z (Z.of_nat k))%Q ->
     (times k Lession1.execute t').1 =
       Raise (ValueError "Недостаточно средств на балансе") /\
     (0 <= Lession1.balance (Lession1.user (times k Lession1.execute t').2) < 1)%Q).
Proof.
  destruct (ModServ_times_execute k t) as [? ?].
  destruct (Lession1_times_execute k t') as [? ?].
  done.
Qed.

End ExecuteTimes.

(** The theorem for three calls, on payers that hold [3.5] and on payers
    that hold [2.5]. *)
Lemma execute_times_witness :
  let t := ModServ.mkMLTask 1
             (ModServ.User_init (fun pw => pw) 0 1 "user" "pw" ModServ.USER)
             (ModServ.Account_init 0 1 (7 # 2)) [∅] ModServ.ExampleMLModel_init in
  let t' := Lession1.mkMLTask 1 (Lession1.User_init 1 "user" "pw" (7 # 2) "user")
              [∅] Lession1.ExampleMLModel_init in
  let short := ModServ.set_account (ModServ.Account_init 0 1 (5 # 2)) t in
  let short' := Lession1.set_user (Lession1.User_init 1 "user" "pw" (5 # 2) "user") t' in
  ((times 3 ModServ.execute t).1 = Return tt /\
   (ModServ.balance (ModServ.account (times 3 ModServ.execute t).2)
      == (7 # 2) - inject_Z (Z.of_nat 3))%Q) /\
  ((times 3 ModServ.execute short).1 =
     Raise (ValueError "Недостаточно средств для выполнения задачи") /\
   (0 <= ModServ.balance (ModServ.account (times 3 ModServ.execute short).2) < 1)%Q) /\
  ((times 3 Lession1.execute t').1 = Return tt /\
   (Lession1.balance (Lession1.user (times 3 Lession1.execute t').2)
      == (7 # 2) - inject_Z (Z.of_nat 3))%Q) /\
  ((times 3 Lession1.execute short').1 =
     Raise (ValueError "Недостаточно средств на балансе") /\
   (0 <= Lession1.balance (Lession1.user (times 3 Lession1.execute short').2) < 1)%Q).
Proof.
  intros t t' short short'.
  destruct (execute_times 3 t t') as (Hok & _ & Hok' & _).
  destruct (execute_times 3 short short') as (_ & Hfail & _ & Hfail').
  split; [apply Hok; vm_compute; discriminate|].
  split; [apply Hfail; split; vm_compute; [discriminate|reflexivity]|].
  split; [apply Hok'; vm_compute; discriminate|].
  apply Hfail'; split; vm_compute; [discriminate|reflexivity].
Defined.

(** ** The text of a user *)

Example User_str_of_an_admin :
  ModServ.User_str (ModServ.Admin_init (fun pw => pw) 0 (-12) "root" "pw") =
    "User(id=-12, username=root, role=admin)".
Proof. reflexivity. Qed.

Lemma pretty_N_go_comma_free (x : N) (s : string) :
  comma_free s -> comma_free (pretty_N_go x s).
Proof.
  revert s. induction (N.lt_wf_0 x) as [x _ IH]; intros s Hs.
  assert (x = 0 \/ 0 < x)%N as [->|Hpos] by lia.
  - by rewrite pretty_N_go_0.
  - rewrite pretty_N_go_step by done. apply IH; [by apply N.div_lt|].
    split; [|done]. unfold pretty_N_char. by repeat case_match.
Qed.

Lemma pretty_Z_comma_free (z : Z) : comma_free (pretty z).
Proof.
  assert (forall p : positive, comma_free (pretty p)) as Hpos.
  { intros p. unfold pretty, pretty_positive, pretty, pretty_N.
    case_decide; [done|]. by apply pretty_N_go_comma_free. }
  destruct z as [|p|p]; [done|apply Hpos|]. split; [done|apply Hpos].
Qed.

Lemma split_at_comma (a1 a2 r1 r2 : string) :
  comma_free a1 -> comma_free a2 ->
  a1 +:+ String "," r1 = a2 +:+ String "," r2 -> a1 = a2 /\ r1 = r2.
Proof.
  revert a2. induction a1 as [|c a1 IH]; intros [|c' a2]; simpl.
  - by intros _ _ [= ->].
  - by intros _ [Hc _] [= <- _].
  - by intros [Hc _] _ [= -> _].
  - intros [_ H1] [_ H2] [= -> Heq]. by destruct (IH a2 H1 H2 Heq) as [-> ->].
Qed.

Lemma string_app_cons (c : ascii) (a b : string) :
  String c a +:+ b = String c (a +:+ b).
Proof. reflexivity. Qed.

Lemma string_length_app (a b : string) :
  String.length (a +:+ b) = (String.length a + String.length b)%nat.
Proof.
  induction a as [|c a IH]; [done|].
  rewrite string_app_cons. cbn [String.length]. by rewrite IH.
Qed.

Lemma string_app_assoc (a b c : string) : (a +:+ b) +:+ c = a +:+ b +:+ c.
Proof.
  induction a as [|x a IH]; [done|]. rewrite !string_app_cons. by rewrite IH.
Qed.

Lemma string_app_inj_tail (a b s s' : string) :
  String.length s = String.length s' -> a +:+ s = b +:+ s' -> a = b /\ s = s'.
Proof.
  intros Hlen. revert b. induction a as [|c a IH]; intros [|c' b].
  - done.
  - intros Heq. apply (f_equal String.length) in Heq.
    rewrite !string_length_app in Heq. cbn [String.length] in Heq. lia.
  - intros Heq. apply (f_equal String.length) in Heq.
    rewrite !string_length_app in Heq. cbn [String.length] in Heq. lia.
  - rewrite !string_app_cons. intros [= -> Heq].
    by destruct (IH b Heq) as [-> ->].
Qed.

(** X12. [User.__str__] tells users apart by id, name and role, and by
    nothing else: two users have the same text exactly when they have the
    same [user_id], [username] and [role], whatever characters the names
    hold; the password hash and the creation time never show. *)
Theorem User_str_eq_iff (u1 u2 : ModServ.User) :
  ModServ.User_str u1 = ModServ.User_str u2 <->
  ModServ.User_user_id u1 = ModServ.User_user_id u2 /\
  ModServ.username u1 = ModServ.username u2 /\
  ModServ.role u1 = ModServ.role u2.
Proof.
  unfold ModServ.User_str. split; [|by intros (-> & -> & ->)].
  destruct u1 as [id1 n1 h1 r1 c1], u2 as [id2 n2 h2 r2 c2].
  cbn [ModServ.User_user_id ModServ.username ModServ.role].
  intros Heq. apply String.app_inj in Heq.
  apply (split_at_comma (pretty id1) (pretty id2)
           (" username=" +:+ n1 +:+ ", role=" +:+ ModServ.Role_value r1 +:+ ")")
           (" username=" +:+ n2 +:+ ", role=" +:+ ModServ.Role_value r2 +:+ ")"))
    in Heq as [Hid Heq]; [|apply pretty_Z_comma_free..].
  apply (inj pretty) in Hid. apply String.app_inj in Heq.
  assert (forall n : string,
            n +:+ ", role=" +:+ "user" +:+ ")" = (n +:+ ", role=") +:+ "user)")
    as Huser by (intros n; by rewrite string_app_assoc).
  assert (forall n : string,
            n +:+ ", role=" +:+ "admin" +:+ ")" = (n +:+ ", role=a") +:+ "dmin)")
    as Hadmin by (intros n; by rewrite string_app_assoc).
  destruct r1, r2; cbn [ModServ.Role_value] in Heq.
  - by apply string_app_inj_tail in Heq as [-> _].
  - rewrite Huser, Hadmin in Heq. by apply string_app_inj_tail in Heq as [_ [=]].
  - rewrite Huser, Hadmin in Heq. by apply string_app_inj_tail in Heq as [_ [=]].
  - by apply string_app_inj_tail in Heq as [-> _].
Qed.

(** ** Only balances change *)

Section Frame.
Context {T T' : Type} {model_T : ModServ.MLModel T} {model_T' : Lession1.MLModel T'}.

(** X13. Whatever the amount and whether they return or raise,
    [User.add_balance], [User.deduct_balance] and [Admin.add_user_balance]
    leave the user's id, name, password and role as they were; and
    [MLTask.execute], in both modules, leaves the task's id, data and model
    as they were and changes nothing of the payer but the balance (in
    [src/mod_serv.py] the task's user is untouched altogether). *)
Theorem only_the_balance_changes
    (amount : Q) (u : Lession1.User)
    (t : ModServ.MLTask T) (t' : Lession1.MLTask T') :
  User_same_but_balance u (Lession1.add_balance amount u).2 /\
  User_same_but_balance u (Lession1.deduct_balance amount u).2 /\
  User_same_but_balance u (Lession1.add_user_balance amount u).2 /\
  (ModServ.task_id (ModServ.execute t).2 = ModServ.task_id t /\
   ModServ.user (ModServ.execute t).2 = ModServ.user t /\
   ModServ.data (ModServ.execute t).2 = ModServ.data t /\
   ModServ.model (ModServ.execute t).2 = ModServ.model t /\
   Account_same_but_balance (ModServ.account t) (ModServ.account (ModServ.execute t).2)) /\
  (Lession1.task_id (Lession1.execute t').2 = Lession1.task_id t' /\
   Lession1.data (Lession1.execute t').2 = Lession1.data t' /\
   Lession1.model (Lession1.execute t').2 = Lession1.model t' /\
   User_same_but_balance (Lession1.user t') (Lession1.user (Lession1.execute t').2)).
Proof.
  unfold Lession1.add_user_balance.
  rewrite add_balance_run, deduct_balance_run, ModServ_execute_run, Lession1_execute_run.
  destruct (Qlt_bool 0 amount), (Qle_bool amount (Lession1.balance u)),
    (Qlt_bool (ModServ.balance (ModServ.account t)) 1),
    (Qle_bool 1 (Lession1.balance (Lession1.user t'))); by repeat split.
Qed.

End Frame.

(** * The balances in binary64 *)

(** ** Comparisons with zero and NaN, through the specification of floats *)

Lemma leb_zero_spec (x : float) : (0 <=? x)%float = sf_nonneg (Prim2SF x).
Proof.
  rewrite leb_spec. change (Prim2SF 0) with (S754_zero false).
  by destruct (Prim2SF x) as [[]|[]| |[] ? ?].
Qed.

Lemma SFcompare_antisym (x y : spec_float) :
  SFcompare y x = CompOpp <$> SFcompare x y.
Proof.
  destruct x as [sx|sx| |sx mx ex], y as [sy|sy| |sy my ey]; simpl;
    try by repeat match goal with s : bool |- _ => destruct s end.
  destruct sx, sy; simpl; try done; f_equal;
    rewrite (Z.compare_antisym ey ex);
    destruct (ey ?= ex) eqn:E; simpl; try done;
    rewrite ?CompOpp_involutive; by rewrite Pos.compare_cont_antisym.
Qed.

Lemma SFcompare_refl (x : spec_float) :
  SFcompare x x = if sf_is_nan x then None else Some Eq.
Proof.
  destruct x as [s|s| |s m e]; simpl; try done.
  - by destruct s.
  - rewrite Z.compare_refl, Pos.compare_cont_refl. by destruct s.
Qed.

Lemma is_nan_spec (x : float) : is_nan x = sf_is_nan (Prim2SF x).
Proof.
  unfold is_nan. rewrite FloatAxioms.eqb_spec. unfold SFeqb.
  rewrite SFcompare_refl. by destruct (sf_is_nan (Prim2SF x)).
Qed.

(** ** Digits and shifts *)

Lemma digits2_pos_bounds (m : positive) :
  2 ^ (Zpos (digits2_pos m) - 1) <= Zpos m < 2 ^ Zpos (digits2_pos m).
Proof.
  assert (forall d : Z, 1 <= d -> 2 ^ (Z.succ d - 1) = 2 * 2 ^ (d - 1) /\
                                  2 ^ Z.succ d = 2 * 2 ^ d) as Hpow.
  { intros d Hd. split; [|by rewrite Z.pow_succ_r by lia].
    replace (Z.succ d - 1) with (Z.succ (d - 1)) by lia.
    by rewrite Z.pow_succ_r by lia. }
  induction m as [m IH|m IH|]; cbn [digits2_pos]; [| |done].
  - rewrite Pos2Z.inj_succ.
    destruct (Hpow (Zpos (digits2_pos m))) as [H1 H2]; lia.
  - rewrite Pos2Z.inj_succ.
    destruct (Hpow (Zpos (digits2_pos m))) as [H1 H2]; lia.
Qed.

Lemma iter_xO_value (m d : positive) :
  Zpos (Pos.iter xO m d) = Zpos m * 2 ^ Zpos d.
Proof.
  induction d as [|d IH] using Pos.peano_ind.
  - simpl. lia.
  - rewrite Pos.iter_succ, Pos2Z.inj_succ, Z.pow_succ_r by lia. lia.
Qed.

Lemma shl_align_value (m : positive) (e e' : Z) :
  e' <= e ->
  Zpos (shl_align m e e').1 = Zpos m * 2 ^ (e - e') /\ (shl_align m e e').2 = e'.
Proof.
  intros Hle. unfold shl_align.
  destruct (e' - e) as [|d|d] eqn:Hd; simpl.
  - assert (e = e') as -> by lia. rewrite Z.sub_diag. simpl. lia.
  - lia.
  - rewrite iter_xO_value. replace (e - e') with (Zpos d) by lia. done.
Qed.

Lemma bounded_facts (m : positive) (e : Z) :
  bounded prec emax m e = true ->
  -1074 <= e /\ Zpos m < 2 ^ 53 /\ (-1074 < e -> 2 ^ 52 <= Zpos m) /\ e <= 971.
Proof.
  unfold bounded, canonical_mantissa, fexp, SpecFloat.emin, prec, emax.
  intros [Hc He%Z.leb_le]%andb_prop. apply Z.eqb_eq in Hc.
  pose proof (digits2_pos_bounds m) as [Hlo Hhi].
  assert (Zpos (digits2_pos m) <= 53) as Hd by lia.
  split; [lia|]. split.
  - eapply Z.lt_le_trans; [exact Hhi|]. apply Z.pow_le_mono_r; lia.
  - split; [|lia]. intros Hn.
    assert (Zpos (digits2_pos m) = 53) as Hd53 by lia.
    rewrite Hd53 in Hlo. exact Hlo.
Qed.

(** ** Rounding keeps the sign *)

Lemma shr_1_nonneg (mrs : shr_record) : 0 <= shr_m mrs -> 0 <= shr_m (shr_1 mrs).
Proof. destruct mrs as [[|[p|p|]|p] r s]; simpl; lia. Qed.

Lemma iter_pos_shr_1_nonneg (n : positive) (mrs : shr_record) :
  0 <= shr_m mrs -> 0 <= shr_m (SpecFloat.iter_pos shr_1 n mrs).
Proof.
  revert mrs. induction n as [n IH|n IH|]; intros mrs Hm; cbn [SpecFloat.iter_pos].
  - by apply IH, IH, shr_1_nonneg.
  - by apply IH, IH.
  - by apply shr_1_nonneg.
Qed.

Lemma shr_fexp_nonneg (m e : Z) (l : location) :
  0 <= m -> 0 <= shr_m (shr_fexp prec emax m e l).1.
Proof.
  intros Hm. unfold shr_fexp, shr.
  assert (0 <= shr_m (shr_record_of_loc m l)) as Hrec by by destruct l as [|[]].
  destruct (fexp prec emax (Zdigits2 m + e) - e); cbn [fst]; [done| |done].
  by apply iter_pos_shr_1_nonneg.
Qed.

Lemma round_nearest_even_nonneg (m : Z) (l : location) :
  0 <= m -> 0 <= round_nearest_even m l.
Proof. intros Hm. destruct l as [|[]]; simpl; [done| |done|lia]. destruct (Z.even m); lia. Qed.

Lemma binary_round_aux_signed (s : bool) (m e : Z) (l : location) :
  0 <= m -> sf_signed s (binary_round_aux prec emax s m e l).
Proof.
  intros Hm. unfold binary_round_aux.
  pose proof (shr_fexp_nonneg m e l Hm) as H1.
  destruct (shr_fexp prec emax m e l) as [mrs' e'].
  pose proof (shr_fexp_nonneg _ e' loc_Exact
                (round_nearest_even_nonneg _ (loc_of_shr_record mrs') H1)) as H2.
  destruct (shr_fexp prec emax _ e' loc_Exact) as [mrs'' e''].
  cbn [fst] in H2. destruct (shr_m mrs''); [done| |lia].
  by destruct (e'' <=? emax - prec).
Qed.

Lemma binary_round_signed (s : bool) (m : positive) (e : Z) :
  sf_signed s (binary_round prec emax s m e).
Proof.
  unfold binary_round.
  destruct (shl_align m e _) as [mz ez]. by apply binary_round_aux_signed.
Qed.

Lemma binary_normalize_nonneg (m e : Z) :
  0 <= m -> sf_nonneg (binary_normalize prec emax m e false) = true.
Proof.
  intros Hm. destruct m as [|p|p]; simpl; [done| |lia].
  pose proof (binary_round_signed false p e) as Hs.
  by destruct (binary_round prec emax false p e) as [?|?| |? ? ?]; simpl in *; subst.
Qed.

(** ** Sums and differences of non-negative floats *)

Lemma SF64add_nonneg (x y : spec_float) :
  sf_nonneg x = true -> sf_nonneg y = true -> sf_nonneg (SF64add x y) = true.
Proof.
  destruct x as [sx|[]| |[] mx ex], y as [sy|[]| |[] my ey]; try done.
  - intros _ _. by destruct sx, sy.
  - intros _ _. unfold SF64add, SFadd. apply binary_normalize_nonneg. simpl. lia.
Qed.

Lemma aligned_diff_nonneg (mx ma : positive) (ex ea : Z) :
  bounded prec emax mx ex = true -> bounded prec emax ma ea = true ->
  ea < ex \/ (ea = ex /\ Zpos ma <= Zpos mx) ->
  0 <= Zpos (shl_align mx ex (Z.min ex ea)).1 - Zpos (shl_align ma ea (Z.min ex ea)).1.
Proof.
  intros (_ & _ & Hnx & _)%bounded_facts (Hea & Hma & _ & _)%bounded_facts Hle.
  destruct (shl_align_value mx ex (Z.min ex ea)) as [-> _]; [lia|].
  destruct (shl_align_value ma ea (Z.min ex ea)) as [-> _]; [lia|].
  destruct Hle as [Hlt|[-> Hm]].
  - rewrite Z.min_r by lia. rewrite Z.sub_diag. change (2 ^ 0) with 1.
    assert (2 ^ 1 <= 2 ^ (ex - ea)) as Hp by (apply Z.pow_le_mono_r; lia).
    change (2 ^ 1) with 2 in Hp. specialize (Hnx ltac:(lia)).
    change (2 ^ 53) with 9007199254740992 in Hma.
    change (2 ^ 52) with 4503599627370496 in Hnx. nia.
  - rewrite Z.min_id, Z.sub_diag. change (2 ^ 0) with 1. lia.
Qed.

Lemma SF64sub_nonneg (x a : spec_float) :
  valid_binary x = true -> valid_binary a = true ->
  sf_nonneg x = true -> SFleb a x = true ->
  sf_is_pos_infinity a && sf_is_pos_infinity x = false ->
  sf_nonneg (SF64sub x a) = true.
Proof.
  intros Hvx Hva Hx Hle Hinf. unfold SFleb in Hle.
  destruct x as [sx|[]| |[] mx ex]; try done;
    destruct a as [sa|[]| |[] ma ea]; try done.
  - by destruct sx, sa.
  - unfold SF64sub, SFsub. apply binary_normalize_nonneg. simpl. lia.
  - unfold SF64sub, SFsub. apply binary_normalize_nonneg.
    cbn [cond_Zopp]. apply aligned_diff_nonneg; [done..|].
    cbn [SFcompare] in Hle.
    destruct (ea ?= ex) eqn:He; [|left; by apply Z.compare_lt_iff|done].
    right. apply Z.compare_eq in He. split; [done|].
    destruct (Pos.compare_cont Eq ma mx) eqn:Hm; [| |done].
    + apply Pos.compare_eq in Hm. lia.
    + apply Z.lt_le_incl, Pos2Z.pos_lt_pos. exact Hm.
Qed.

(** ** The same on primitive floats *)

Lemma is_infinity_spec (x : float) : is_infinity x = sf_is_infinity (Prim2SF x).
Proof.
  unfold is_infinity. rewrite FloatAxioms.eqb_spec, abs_spec.
  change (Prim2SF infinity) with (S754_infinity false).
  by destruct (Prim2SF x) as [s|s| |s m e].
Qed.

Lemma nonneg_not_nan (x : float) : nonneg x -> is_nan x = false.
Proof.
  unfold nonneg. rewrite leb_zero_spec, is_nan_spec. by destruct (Prim2SF x).
Qed.

Lemma add_nonneg (b a : float) : nonneg b -> nonneg a -> nonneg (b + a).
Proof.
  unfold nonneg. rewrite !leb_zero_spec, add_spec. apply SF64add_nonneg.
Qed.

Lemma eqb_infinity_spec (x : float) :
  (x =? infinity)%float = sf_is_pos_infinity (Prim2SF x).
Proof.
  rewrite FloatAxioms.eqb_spec.
  change (Prim2SF infinity) with (S754_infinity false).
  by destruct (Prim2SF x) as [s|[]| |s m e].
Qed.

Lemma not_infinity_both_inf (a b : float) : is_infinity a = false -> both_inf a b = false.
Proof.
  unfold both_inf. rewrite is_infinity_spec, !eqb_infinity_spec.
  by destruct (Prim2SF a) as [s|[]| |s m e].
Qed.

Lemma sub_nonneg (b a : float) :
  nonneg b -> (a <=? b)%float = true -> both_inf a b = false ->
  nonneg (b - a).
Proof.
  unfold nonneg, both_inf.
  rewrite !leb_zero_spec, sub_spec, leb_spec, !eqb_infinity_spec.
  apply SF64sub_nonneg; apply Prim2SF_valid.
Qed.

Lemma ltb_zero_nonneg (a : float) : (0 <? a)%float = true -> nonneg a.
Proof.
  unfold nonneg. rewrite leb_zero_spec, ltb_spec.
  change (Prim2SF 0) with (S754_zero false).
  by destruct (Prim2SF a) as [s|[]| |[] m e].
Qed.

Lemma not_leb_zero_nonneg (a : float) :
  is_nan a = false -> (a <=? 0)%float = false -> nonneg a.
Proof.
  unfold nonneg. rewrite leb_zero_spec, leb_spec, is_nan_spec.
  change (Prim2SF 0) with (S754_zero false).
  by destruct (Prim2SF a) as [s|[]| |[] m e].
Qed.

Lemma leb_ltb_false (a b : float) : (a <=? b)%float = true -> (b <? a)%float = false.
Proof.
  rewrite leb_spec, ltb_spec. unfold SFleb, SFltb.
  rewrite (SFcompare_antisym (Prim2SF a) (Prim2SF b)). by destruct (SFcompare _ _) as [[]|].
Qed.

Lemma ltb_leb_false (a b : float) : (b <? a)%float = true -> (a <=? b)%float = false.
Proof.
  rewrite leb_spec, ltb_spec. unfold SFleb, SFltb.
  rewrite (SFcompare_antisym (Prim2SF a) (Prim2SF b)). by destruct (SFcompare _ _) as [[]|].
Qed.

Lemma SFcompare_None (x y : spec_float) :
  SFcompare x y = None -> sf_is_nan x || sf_is_nan y = true.
Proof.
  destruct x as [sx|sx| |sx mx ex], y as [sy|sy| |sy my ey]; try done;
    by repeat match goal with s : bool |- _ => destruct s end.
Qed.

Lemma not_ltb_leb (a b : float) :
  is_nan a = false -> is_nan b = false ->
  (b <? a)%float = false -> (a <=? b)%float = true.
Proof.
  rewrite leb_spec, ltb_spec, !is_nan_spec. unfold SFleb, SFltb.
  rewrite (SFcompare_antisym (Prim2SF a) (Prim2SF b)). intros Ha Hb.
  destruct (SFcompare _ _) as [[]|] eqn:Hc; try done.
  apply SFcompare_None in Hc. by rewrite Ha, Hb in Hc.
Qed.

(** ** Rounding a number that is a float changes nothing *)

Lemma digits2_pos_unique (m : positive) (d : Z) :
  2 ^ (d - 1) <= Zpos m < 2 ^ d -> Zpos (digits2_pos m) = d.
Proof.
  intros [Hlo Hhi]. pose proof (digits2_pos_bounds m) as [Hlo' Hhi'].
  destruct (Z.lt_trichotomy (Zpos (digits2_pos m)) d) as [Hlt|[Heq|Hgt]]; [|done|].
  - assert (2 ^ Zpos (digits2_pos m) <= 2 ^ (d - 1)) by (apply Z.pow_le_mono_r; lia).
    lia.
  - assert (2 ^ d <= 2 ^ (Zpos (digits2_pos m) - 1)) by (apply Z.pow_le_mono_r; lia).
    lia.
Qed.

Lemma shr_1_double (q : Z) :
  0 <= q ->
  shr_1 {| shr_m := 2 * q; shr_r := false; shr_s := false |} =
    {| shr_m := q; shr_r := false; shr_s := false |}.
Proof. by destruct q as [|p|p]. Qed.

Lemma iter_pos_shr_1_exact (n : positive) (q : Z) :
  0 <= q ->
  SpecFloat.iter_pos shr_1 n {| shr_m := q * 2 ^ Zpos n; shr_r := false; shr_s := false |} =
    {| shr_m := q; shr_r := false; shr_s := false |}.
Proof.
  revert q. induction n as [n IH|n IH|]; intros q Hq; cbn [SpecFloat.iter_pos].
  - replace (q * 2 ^ Zpos n~1) with (2 * ((q * 2 ^ Zpos n) * 2 ^ Zpos n)).
    + rewrite shr_1_double by nia. rewrite IH by nia. by apply IH.
    + replace (Zpos n~1) with (1 + Zpos n + Zpos n) by lia.
      rewrite !Z.pow_add_r by lia. change (2 ^ 1) with 2. ring.
  - replace (q * 2 ^ Zpos n~0) with ((q * 2 ^ Zpos n) * 2 ^ Zpos n).
    + rewrite IH by nia. by apply IH.
    + replace (Zpos n~0) with (Zpos n + Zpos n) by lia.
      rewrite !Z.pow_add_r by lia. ring.
  - change (2 ^ 1) with 2. rewrite Z.mul_comm. by apply shr_1_double.
Qed.

Lemma binary_round_aux_canonical (s : bool) (m : positive) (e : Z) :
  fexp prec emax (Zpos (digits2_pos m) + e) = e -> e <= emax - prec ->
  binary_round_aux prec emax s (Zpos m) e loc_Exact = S754_finite s m e.
Proof.
  intros Hc He. unfold binary_round_aux, shr_fexp. cbn [Zdigits2 shr_record_of_loc].
  rewrite Hc, Z.sub_diag. cbn [shr shr_m loc_of_shr_record round_nearest_even].
  cbn [Zdigits2 shr_record_of_loc]. rewrite Hc, Z.sub_diag. cbn [shr shr_m].
  by apply Z.leb_le in He as ->.
Qed.

Lemma fexp_mono_digits (d e k : Z) : fexp prec emax (d + k + (e - k)) = fexp prec emax (d + e).
Proof. f_equal. lia. Qed.

(** The number [M * 2^e] needs more bits than [e] leaves: shift left. *)
Lemma binary_round_exact_left (s : bool) (M : positive) (e : Z) :
  let E := fexp prec emax (Zpos (digits2_pos M) + e) in
  E <= e -> E <= emax - prec ->
  exists m' : positive,
    binary_round prec emax s M e = S754_finite s m' E /\
    Zpos m' = Zpos M * 2 ^ (e - E).
Proof.
  intros E HE Hmax. unfold binary_round. fold E.
  destruct (shl_align_value M e E HE) as [Hv He].
  destruct (shl_align M e E) as [mz ez]. cbn [fst snd] in Hv, He. subst ez.
  exists mz. split; [|done]. apply binary_round_aux_canonical; [|done].
  pose proof (digits2_pos_bounds M) as [Hlo Hhi].
  rewrite (digits2_pos_unique mz (Zpos (digits2_pos M) + (e - E))).
  - unfold E at 2. fold E. replace (Zpos (digits2_pos M) + (e - E) + E)
      with (Zpos (digits2_pos M) + e) by lia. done.
  - rewrite Hv.
    replace (Zpos (digits2_pos M) + (e - E) - 1)
      with ((Zpos (digits2_pos M) - 1) + (e - E)) by lia.
    rewrite !Z.pow_add_r by lia.
    assert (0 < 2 ^ (e - E)) by (apply Z.pow_pos_nonneg; lia). nia.
Qed.

(** The number has room to spare and its low bits are zero: shift right. *)
Lemma binary_round_exact_right (s : bool) (M q : positive) (e : Z) :
  let E := fexp prec emax (Zpos (digits2_pos M) + e) in
  e < E -> E <= emax - prec -> Zpos M = Zpos q * 2 ^ (E - e) ->
  binary_round prec emax s M e = S754_finite s q E.
Proof.
  intros E HE Hmax HM. unfold binary_round. fold E.
  unfold shl_align. destruct (E - e) as [|n|n] eqn:Hn; [lia| |lia].
  unfold binary_round_aux, shr_fexp. cbn [Zdigits2 shr_record_of_loc]. fold E.
  rewrite Hn. cbn [shr]. rewrite HM, iter_pos_shr_1_exact by lia.
  cbn [shr_m loc_of_shr_record round_nearest_even Zdigits2 shr_record_of_loc].
  pose proof (digits2_pos_bounds M) as [Hlo Hhi].
  assert (Zpos (digits2_pos q) = Zpos (digits2_pos M) - Zpos n) as Hdq.
  { apply digits2_pos_unique.
    assert (0 < 2 ^ Zpos n) by (apply Z.pow_pos_nonneg; lia).
    pose proof (digits2_pos_bounds q) as [Hlq Hhq].
    assert (Zpos (digits2_pos M) = Zpos (digits2_pos q) + Zpos n) as ->; [|split].
    - apply digits2_pos_unique. rewrite HM.
      replace (Zpos (digits2_pos q) + Zpos n - 1)
        with ((Zpos (digits2_pos q) - 1) + Zpos n) by lia.
      rewrite !Z.pow_add_r by lia. nia.
    - by replace (Zpos (digits2_pos q) + Zpos n - Zpos n - 1)
        with (Zpos (digits2_pos q) - 1) by lia.
    - by replace (Zpos (digits2_pos q) + Zpos n - Zpos n)
        with (Zpos (digits2_pos q)) by lia. }
  replace (fexp prec emax (Zpos (digits2_pos q) + (e + Zpos n))) with E
    by (unfold E; f_equal; lia).
  replace (e + Zpos n) with E by lia. rewrite Z.sub_diag. cbn [shr shr_m].
  by apply Z.leb_le in Hmax as ->.
Qed.

(** ** Subtracting [1.0] from a float between [1.0] and [2.0 ** 53] is exact *)

Lemma Qscale (a k e : Z) :
  0 <= k -> (inject_Z (a * 2 ^ k) * 2 ^ e == inject_Z a * 2 ^ (k + e))%Q.
Proof.
  intros Hk. rewrite inject_Z_mult, Zpower_Qpower by done.
  rewrite Qpower_plus by done. change (inject_Z 2) with 2%Q. ring.
Qed.

Lemma SF64sub_one_exact (x : spec_float) :
  valid_binary x = true -> SFleb sf_one x = true -> SFleb x sf_two53 = true ->
  sf_is_nan (SF64sub x sf_one) = false /\
  sf_is_infinity (SF64sub x sf_one) = false /\
  (SF2Q (SF64sub x sf_one) == SF2Q x - 1)%Q.
Proof.
  intros Hv H1 H2. unfold SFleb in H1, H2.
  destruct x as [sx|[]| |[] mb eb]; try done.
  apply bounded_facts in Hv as (Hemin & Hmhi & Hmlo & _).
  change (2 ^ 53) with 9007199254740992 in Hmhi.
  change (2 ^ 52) with 4503599627370496 in Hmlo.
  cbn [sf_one sf_two53 SFcompare] in H1, H2.
  assert (-52 <= eb /\ 4503599627370496 <= Zpos mb) as [Hlo Hm].
  { destruct (-52 ?= eb) eqn:He; [| |done].
    - apply Z.compare_eq in He. split; [lia|]. apply Hmlo. lia.
    - assert (-52 < eb) as Hlt by exact He. split; [lia|]. apply Hmlo. lia. }
  assert (eb <= 0 \/ (eb = 1 /\ Zpos mb = 4503599627370496)) as Hhi.
  { destruct (eb ?= 1) eqn:He; [| |done].
    - apply Z.compare_eq in He. right. split; [done|].
      destruct (Pos.compare_cont Eq mb 4503599627370496) eqn:Hc; [| |done].
      + apply Pos.compare_eq in Hc. lia.
      + pose proof (Pos2Z.pos_lt_pos _ _ Hc). lia.
    - assert (eb < 1) as Hlt by exact He. left. lia. }
  clear H1 H2 Hmlo.
  unfold SF64sub, SFsub, sf_one. cbn [cond_Zopp].
  rewrite Z.min_r by lia.
  destruct (shl_align_value mb eb (-52)) as [-> _]; [lia|].
  destruct (shl_align_value 4503599627370496 (-52) (-52)) as [-> _]; [lia|].
  rewrite Z.sub_diag. change (4503599627370496 * 2 ^ 0) with 4503599627370496.
  replace (eb - -52) with (eb + 52) by lia.
  set (A := Zpos mb * 2 ^ (eb + 52)).
  assert (SF2Q (S754_finite false mb eb) - 1 ==
          inject_Z (A - 4503599627370496) * 2 ^ (-52))%Q as Hval.
  { unfold A, SF2Q, cond_Zopp. unfold Z.sub. rewrite inject_Z_plus, inject_Z_opp.
    rewrite Qmult_plus_distr_l, Qscale by lia.
    replace (eb + 52 + -52) with eb by lia. 
    assert (- inject_Z 4503599627370496 * 2 ^ (-52) == - 1)%Q as -> by reflexivity.
    ring. }
  rewrite Hval. clear Hval.
  (* the aligned difference is K * 2^j with K below 2^53 *)
  assert (exists K j : Z,
             0 <= j <= 52 /\ 0 <= K < 9007199254740992 /\
             A - 4503599627370496 = K * 2 ^ j) as (K & j & Hj & HK & HA).
  { destruct Hhi as [Hle|[-> Hmb]].
    - exists (Zpos mb - 2 ^ (- eb)), (eb + 52). split; [lia|].
      assert (2 ^ (- eb) * 2 ^ (eb + 52) = 4503599627370496) as Hp.
      { rewrite <- Z.pow_add_r by lia. by replace (- eb + (eb + 52)) with 52 by lia. }
      assert (0 < 2 ^ (- eb) <= 4503599627370496) as Hpe.
      { split; [apply Z.pow_pos_nonneg; lia|].
        change 4503599627370496 with (2 ^ 52). apply Z.pow_le_mono_r; lia. }
      split; [lia|]. unfold A. rewrite Z.mul_sub_distr_r, Hp. done.
    - exists (Zpos mb * 2 - 1), 52. split; [lia|]. split; [lia|].
      unfold A. rewrite Hmb. reflexivity. }
  assert (0 < 2 ^ j) as Hpj by (apply Z.pow_pos_nonneg; lia).
  destruct (A - 4503599627370496) as [|p|p] eqn:HM; [| |nia].
  { cbn [binary_normalize]. by repeat split. }
  cbn [binary_normalize].
  pose proof (digits2_pos_bounds p) as [Hdlo Hdhi].
  assert (Zpos (digits2_pos p) <= j + 53) as Hd.
  { assert (Zpos p < 2 ^ (j + 53)) as Hp.
    { rewrite HA, Z.pow_add_r by lia. change (2 ^ 53) with 9007199254740992. nia. }
    destruct (Z.le_gt_cases (Zpos (digits2_pos p)) (j + 53)) as [|Hgt]; [done|].
    assert (2 ^ (j + 53) <= 2 ^ (Zpos (digits2_pos p) - 1))
      by (apply Z.pow_le_mono_r; lia). lia. }
  assert (fexp prec emax (Zpos (digits2_pos p) + -52) = Zpos (digits2_pos p) - 105) as HE.
  { unfold fexp, SpecFloat.emin, prec, emax. lia. }
  destruct (Z.le_gt_cases (Zpos (digits2_pos p)) 53) as [Hsmall|Hbig].
  - destruct (binary_round_exact_left false p (-52)) as (m' & -> & Hm').
    { rewrite HE. lia. }
    { rewrite HE. unfold prec, emax. lia. }
    rewrite HE in Hm' |- *. repeat split.
    unfold SF2Q, cond_Zopp. rewrite Hm', Qscale by lia.
    by replace (-52 - (Zpos (digits2_pos p) - 105) + (Zpos (digits2_pos p) - 105))
      with (-52) by lia.
  - set (n := Zpos (digits2_pos p) - 53).
    assert (Zpos p = Zpos (Z.to_pos (K * 2 ^ (j - n))) * 2 ^ n) as Hq.
    { assert (0 < 2 ^ (j - n)) by (apply Z.pow_pos_nonneg; lia).
      rewrite Z2Pos.id by nia. rewrite <- Z.mul_assoc, <- Z.pow_add_r by lia.
      by replace (j - n + n) with j by lia. }
    rewrite (binary_round_exact_right false p (Z.to_pos (K * 2 ^ (j - n))) (-52)).
    + rewrite HE. repeat split. unfold SF2Q, cond_Zopp.
      rewrite Hq, Qscale by lia.
      by replace (n + -52) with (Zpos (digits2_pos p) - 105) by lia.
    + rewrite HE. lia.
    + rewrite HE. unfold prec, emax. lia.
    + rewrite HE. by replace (Zpos (digits2_pos p) - 105 - -52) with n by lia.
Qed.

Lemma sub_one_exact (b : float) :
  (1 <=? b)%float = true -> (b <=? 0x1p+53)%float = true ->
  is_nan (b - 1) = false /\ is_infinity (b - 1) = false /\
  (F2Q (b - 1) == F2Q b - 1)%Q.
Proof.
  rewrite !leb_spec, is_nan_spec, is_infinity_spec. unfold F2Q. rewrite sub_spec.
  change (Prim2SF 1) with sf_one. change (Prim2SF 0x1p+53) with sf_two53.
  apply SF64sub_one_exact, Prim2SF_valid.
Qed.

Lemma is_finite_spec (x : float) :
  is_finite x = true -> is_nan x = false /\ is_infinity x = false.
Proof. unfold is_finite. by destruct (is_nan x), (is_infinity x). Qed.



Lemma nan_leb_false (b x : float) : is_nan b = true -> (b <=? x)%float = false.
Proof.
  rewrite is_nan_spec, leb_spec. by destruct (Prim2SF b) as [?|?| |? ? ?].
Qed.

Lemma ltb_nan_false (x b : float) : is_nan b = true -> (x <? b)%float = false.
Proof.
  rewrite is_nan_spec, ltb_spec.
  destruct (Prim2SF b) as [?|?| |? ? ?]; try done. intros _.
  by destruct (Prim2SF x) as [?|?| |? ? ?].
Qed.

Lemma nan_not_nonneg (x : float) : is_nan x = true -> ~ nonneg x.
Proof. intros Hn Hx. apply nonneg_not_nan in Hx. congruence. Qed.

Lemma add_nan (b a : float) : is_nan a = true -> is_nan (b + a) = true.
Proof.
  rewrite !is_nan_spec, add_spec.
  destruct (Prim2SF a) as [?|?| |? ? ?]; try done. intros _.
  by destruct (Prim2SF b) as [?|?| |? ? ?].
Qed.

Lemma sub_nan (b a : float) : is_nan a = true -> is_nan (b - a) = true.
Proof.
  rewrite !is_nan_spec, sub_spec.
  destruct (Prim2SF a) as [?|?| |? ? ?]; try done. intros _.
  by destruct (Prim2SF b) as [?|?| |? ? ?].
Qed.

(** [inf <= 0] and [inf < inf] are false, [inf <= inf] is true, and
    [inf - inf] is NaN. *)
Lemma both_inf_spec (a b : float) :
  both_inf a b = true ->
  (a <=? 0)%float = false /\ (b <? a)%float = false /\
  (a <=? b)%float = true /\ is_nan (b - a) = true.
Proof.
  unfold both_inf. rewrite !eqb_infinity_spec, !leb_spec, ltb_spec, is_nan_spec, sub_spec.
  change (Prim2SF 0) with (S754_zero false).
  destruct (Prim2SF a) as [?|[]| |? ? ?]; try done.
  by destruct (Prim2SF b) as [?|[]| |? ? ?].
Qed.

(** ** What each balance operation does in binary64, case by case *)

Lemma deposit_b64_run (amount : float) (a : ModServ_b64.Account) :
  ModServ_b64.deposit amount a =
    if (amount <=? 0)%float
    then (Raise (ValueError "Сумма пополнения должна быть положительной"), a)
    else (Return tt,
          ModServ_b64.set_balance (ModServ_b64.balance a + amount)%float a).
Proof. unfold ModServ_b64.deposit, bind, get. by destruct (amount <=? 0)%float. Qed.

Lemma withdraw_b64_run (amount : float) (a : ModServ_b64.Account) :
  ModServ_b64.withdraw amount a =
    if (amount <=? 0)%float
    then (Raise (ValueError "Сумма списания должна быть положительной"), a)
    else if (ModServ_b64.balance a <? amount)%float
    then (Raise (ValueError "Недостаточно средств на балансе"), a)
    else (Return tt,
          ModServ_b64.set_balance (ModServ_b64.balance a - amount)%float a).
Proof.
  unfold ModServ_b64.withdraw, bind, get.
  destruct (amount <=? 0)%float; [done|].
  by destruct (ModServ_b64.balance a <? amount)%float.
Qed.

Lemma add_balance_b64_run (amount : float) (u : Lession1_b64.User) :
  Lession1_b64.add_balance amount u =
    if (0 <? amount)%float
    then (Return tt,
          Lession1_b64.set_balance (Lession1_b64.balance u + amount)%float u)
    else (Raise (ValueError "Сумма пополнения должна быть положительной"), u).
Proof. unfold Lession1_b64.add_balance, bind, get. by destruct (0 <? amount)%float. Qed.

Lemma deduct_balance_b64_run (amount : float) (u : Lession1_b64.User) :
  Lession1_b64.deduct_balance amount u =
    if (amount <=? Lession1_b64.balance u)%float
    then (Return tt,
          Lession1_b64.set_balance (Lession1_b64.balance u - amount)%float u)
    else (Raise (ValueError "Недостаточно средств на балансе"), u).
Proof.
  unfold Lession1_b64.deduct_balance, bind, get.
  by destruct (amount <=? Lession1_b64.balance u)%float.
Qed.

(** ** The balance invariant *)

Lemma deposit_b64_ok (amount : float) (a : ModServ_b64.Account) :
  is_nan amount = false ->
  Account_b64_ok a -> Account_b64_ok (ModServ_b64.deposit amount a).2.
Proof.
  unfold Account_b64_ok. intros Hn Ha. rewrite deposit_b64_run.
  destruct (amount <=? 0)%float eqn:E; simpl; [done|].
  apply add_nonneg; [done|]. by apply not_leb_zero_nonneg.
Qed.

Lemma withdraw_b64_ok (amount : float) (a : ModServ_b64.Account) :
  is_nan amount = false ->
  both_inf amount (ModServ_b64.balance a) = false ->
  Account_b64_ok a -> Account_b64_ok (ModServ_b64.withdraw amount a).2.
Proof.
  unfold Account_b64_ok. intros Hn Hi Ha. rewrite withdraw_b64_run.
  destruct (amount <=? 0)%float; simpl; [done|].
  destruct (ModServ_b64.balance a <? amount)%float eqn:E; simpl; [done|].
  apply sub_nonneg; [done| |done].
  apply not_ltb_leb; [done| |done]. by apply nonneg_not_nan.
Qed.

Lemma add_balance_b64_ok (amount : float) (u : Lession1_b64.User) :
  User_b64_ok u -> User_b64_ok (Lession1_b64.add_balance amount u).2.
Proof.
  unfold User_b64_ok. intros Hu. rewrite add_balance_b64_run.
  destruct (0 <? amount)%float eqn:E; simpl; [|done].
  apply add_nonneg; [done|]. by apply ltb_zero_nonneg.
Qed.

Lemma deduct_balance_b64_ok (amount : float) (u : Lession1_b64.User) :
  both_inf amount (Lession1_b64.balance u) = false ->
  User_b64_ok u -> User_b64_ok (Lession1_b64.deduct_balance amount u).2.
Proof.
  unfold User_b64_ok. intros Hi Hu. rewrite deduct_balance_b64_run.
  destruct (amount <=? Lession1_b64.balance u)%float eqn:E; simpl; [|done].
  by apply sub_nonneg.
Qed.

(** The amounts that break the invariant. *)
Lemma deposit_b64_nan (amount : float) (a : ModServ_b64.Account) :
  is_nan amount = true -> ~ Account_b64_ok (ModServ_b64.deposit amount a).2.
Proof.
  intros Hn. rewrite deposit_b64_run, (nan_leb_false _ _ Hn). simpl.
  by apply nan_not_nonneg, add_nan.
Qed.

Lemma withdraw_b64_nan (amount : float) (a : ModServ_b64.Account) :
  is_nan amount = true -> ~ Account_b64_ok (ModServ_b64.withdraw amount a).2.
Proof.
  intros Hn. rewrite withdraw_b64_run, (nan_leb_false _ _ Hn), (ltb_nan_false _ _ Hn).
  simpl.
  by apply nan_not_nonneg, sub_nan.
Qed.

Lemma withdraw_b64_both_inf (amount : float) (a : ModServ_b64.Account) :
  both_inf amount (ModServ_b64.balance a) = true ->
  ~ Account_b64_ok (ModServ_b64.withdraw amount a).2.
Proof.
  intros (H0 & Hlt & _ & Hn)%both_inf_spec.
  rewrite withdraw_b64_run, H0, Hlt. simpl. by apply nan_not_nonneg.
Qed.

Lemma deduct_balance_b64_both_inf (amount : float) (u : Lession1_b64.User) :
  both_inf amount (Lession1_b64.balance u) = true ->
  ~ User_b64_ok (Lession1_b64.deduct_balance amount u).2.
Proof.
  intros (_ & _ & Hle & Hn)%both_inf_spec.
  rewrite deduct_balance_b64_run, Hle. simpl. by apply nan_not_nonneg.
Qed.

Lemma Account_b64_call_ok (op : Account_b64_op) (a : ModServ_b64.Account) :
  Account_b64_finite op ->
  Account_b64_ok a -> Account_b64_ok (Account_b64_call op a).2.
Proof.
  destruct op as [amount|amount]; simpl; intros [Hn Hi]%is_finite_spec.
  - by apply deposit_b64_ok.
  - apply withdraw_b64_ok; [done|]. by apply not_infinity_both_inf.
Qed.

Lemma User_b64_call_ok (op : User_b64_op) (u : Lession1_b64.User) :
  User_b64_finite op ->
  User_b64_ok u -> User_b64_ok (User_b64_call op u).2.
Proof.
  destruct op as [amount|amount]; simpl; intros [Hn Hi]%is_finite_spec.
  - by apply add_balance_b64_ok.
  - apply deduct_balance_b64_ok. by apply not_infinity_both_inf.
Qed.

Lemma run_all_Account_b64_ok (ops : list Account_b64_op) (a : ModServ_b64.Account) :
  Forall Account_b64_finite ops ->
  Account_b64_ok a -> Account_b64_ok (run_all Account_b64_call ops a).
Proof.
  intros Hops. revert a. induction Hops as [|op ops Hop _ IH]; intros a Ha; [done|].
  simpl. apply IH. by apply Account_b64_call_ok.
Qed.

Lemma run_all_User_b64_ok (ops : list User_b64_op) (u : Lession1_b64.User) :
  Forall User_b64_finite ops ->
  User_b64_ok u -> User_b64_ok (run_all User_b64_call ops u).
Proof.
  intros Hops. revert u. induction Hops as [|op ops Hop _ IH]; intros u Hu; [done|].
  simpl. apply IH. by apply User_b64_call_ok.
Qed.

(** C1, as the code has it, in binary64.  The constructors store the
    initial balance they are given without a check, so the balance is
    non-negative after construction when that argument is (in particular by
    default, [0.0]).  From a non-negative balance, whether the call returns
    or raises, the balance is non-negative
    - after [deposit], exactly when the amount is not NaN;
    - after [withdraw], exactly when the amount is not NaN and the amount
      and the balance are not both [inf];
    - after [add_balance], always;
    - after [deduct_balance], exactly when the amount and the balance are
      not both [inf];
    - after every sequence of these calls whose amounts are finite
      numbers. *)
Theorem balance_nonnegative_b64
    (now : datetime) (uid : Z) (name pw r : string) (initial amount : float)
    (a : ModServ_b64.Account) (u : Lession1_b64.User)
    (aops : list Account_b64_op) (uops : list User_b64_op) :
  Account_b64_ok a -> User_b64_ok u ->
  Account_b64_ok (ModServ_b64.Account_init_default now uid) /\
  User_b64_ok (Lession1_b64.User_init_default uid name pw) /\
  (nonneg initial ->
     Account_b64_ok (ModServ_b64.Account_init now uid initial) /\
     User_b64_ok (Lession1_b64.User_init uid name pw initial r)) /\
  (Account_b64_ok (ModServ_b64.deposit amount a).2 <-> is_nan amount = false) /\
  (Account_b64_ok (ModServ_b64.withdraw amount a).2 <->
     is_nan amount = false /\ both_inf amount (ModServ_b64.balance a) = false) /\
  User_b64_ok (Lession1_b64.add_balance amount u).2 /\
  (User_b64_ok (Lession1_b64.deduct_balance amount u).2 <->
     both_inf amount (Lession1_b64.balance u) = false) /\
  (Forall Account_b64_finite aops ->
     Account_b64_ok (run_all Account_b64_call aops a)) /\
  (Forall User_b64_finite uops ->
     User_b64_ok (run_all User_b64_call uops u)).
Proof.
  intros Ha Hu.
  split; [reflexivity|]. split; [reflexivity|].
  split; [intros Hi; by split|].
  split.
  { split; [|intros Hn; by apply deposit_b64_ok].
    intros Hok. destruct (is_nan amount) eqn:Hn; [|done].
    by destruct (deposit_b64_nan amount a). }
  split.
  { split; [|intros [Hn Hi]; by apply withdraw_b64_ok].
    intros Hok. destruct (is_nan amount) eqn:Hn.
    - by destruct (withdraw_b64_nan amount a).
    - destruct (both_inf amount (ModServ_b64.balance a)) eqn:Hi; [|done].
      by destruct (withdraw_b64_both_inf amount a). }
  split; [by apply add_balance_b64_ok|].
  split.
  { split; [|intros Hi; by apply deduct_balance_b64_ok].
    intros Hok. destruct (both_inf amount (Lession1_b64.balance u)) eqn:Hi; [|done].
    by destruct (deduct_balance_b64_both_inf amount u). }
  split; [intros Hops; by apply run_all_Account_b64_ok|].
  intros Hops. by apply run_all_User_b64_ok.
Qed.

(** C1, as stated, fails.  At construction: an account, and a user of the
    duplicate module, built with the initial balance [-5.0] has a negative
    balance.  In the operations: on a balance of [0.0], [deposit] accepts
    the amount NaN ([nan <= 0] is false) and [withdraw] accepts it too, and
    on a balance of [inf], [withdraw] and [deduct_balance] accept the
    amount [inf]; each of these calls returns and leaves the balance NaN,
    which is not [>= 0]. *)
Lemma balance_negative_or_nan :
  (ModServ_b64.balance (ModServ_b64.Account_init 0 1 (-5)) <? 0)%float = true /\
  (Lession1_b64.balance
     (Lession1_b64.User_init 1 "user" "pw" (-5) "user") <? 0)%float = true /\
  (let a := ModServ_b64.Account_init_default 0 1 in
   Account_b64_ok a /\
   (ModServ_b64.deposit nan a).1 = Return tt /\
   ~ Account_b64_ok (ModServ_b64.deposit nan a).2 /\
   (ModServ_b64.withdraw nan a).1 = Return tt /\
   ~ Account_b64_ok (ModServ_b64.withdraw nan a).2) /\
  (let a := ModServ_b64.Account_init 0 1 infinity in
   Account_b64_ok a /\
   (ModServ_b64.withdraw infinity a).1 = Return tt /\
   ~ Account_b64_ok (ModServ_b64.withdraw infinity a).2) /\
  (let u := Lession1_b64.User_init 1 "user" "pw" infinity "user" in
   User_b64_ok u /\
   (Lession1_b64.deduct_balance infinity u).1 = Return tt /\
   ~ User_b64_ok (Lession1_b64.deduct_balance infinity u).2).
Proof. by repeat split. Qed.

(** The theorem on an account and a user that start with [3.0]: single
    calls with the amounts [2.0] and [inf], and sequences of calls, one of
    which overflows the balance to [inf]. *)
Lemma balance_nonnegative_b64_witness :
  let a := ModServ_b64.Account_init 0 1 3 in
  let u := Lession1_b64.User_init 1 "user" "pw" 3 "user" in
  Account_b64_ok (ModServ_b64.Account_init_default 0 1) /\
  User_b64_ok (Lession1_b64.User_init_default 1 "user" "pw") /\
  Account_b64_ok a /\ User_b64_ok u /\
  Account_b64_ok (ModServ_b64.deposit 2 a).2 /\
  Account_b64_ok (ModServ_b64.withdraw 2 a).2 /\
  Account_b64_ok (ModServ_b64.deposit infinity a).2 /\
  Account_b64_ok (ModServ_b64.withdraw infinity a).2 /\
  User_b64_ok (Lession1_b64.add_balance nan u).2 /\
  User_b64_ok (Lession1_b64.deduct_balance infinity u).2 /\
  Account_b64_ok
    (run_all Account_b64_call
       [Deposit_b64 0.5; Withdraw_b64 4; Deposit_b64 0x1.fffffffffffffp+1023;
        Deposit_b64 0x1.fffffffffffffp+1023; Withdraw_b64 3.5] a) /\
  User_b64_ok
    (run_all User_b64_call [DeductBalance_b64 (-1); DeductBalance_b64 5] u).
Proof.
  intros a u.
  assert (Account_b64_ok a) as Ha by reflexivity.
  assert (User_b64_ok u) as Hu by reflexivity.
  pose proof (balance_nonnegative_b64 0 1 "user" "pw" "user" 3 2 a u
                [Deposit_b64 0.5; Withdraw_b64 4;
                 Deposit_b64 0x1.fffffffffffffp+1023;
                 Deposit_b64 0x1.fffffffffffffp+1023; Withdraw_b64 3.5]
                [DeductBalance_b64 (-1); DeductBalance_b64 5] Ha Hu)
    as (Hd & Hd' & _ & Hdep & Hwd & _ & _ & Haops & Huops).
  pose proof (balance_nonnegative_b64 0 1 "user" "pw" "user" 3 infinity a u [] [] Ha Hu)
    as (_ & _ & _ & Hdep' & Hwd' & _ & Hded' & _).
  pose proof (balance_nonnegative_b64 0 1 "user" "pw" "user" 3 nan a u [] [] Ha Hu)
    as (_ & _ & _ & _ & _ & Hadd' & _).
  split; [exact Hd|]. split; [exact Hd'|].
  split; [exact Ha|]. split; [exact Hu|].
  split; [apply Hdep; reflexivity|].
  split; [apply Hwd; split; reflexivity|].
  split; [apply Hdep'; reflexivity|].
  split; [apply Hwd'; split; reflexivity|].
  split; [exact Hadd'|].
  split; [apply Hded'; reflexivity|].
  split; [apply Haops|apply Huops]; repeat constructor.
Defined.

(** ** Executing a task in binary64 *)

Section Execute_b64.
Context {T T' : Type} {model_T : ModServ.MLModel T} {model_T' : Lession1.MLModel T'}.

Lemma ModServ_b64_execute_run (t : ModServ_b64.MLTask T) :
  ModServ_b64.execute t =
    if (ModServ_b64.balance (ModServ_b64.account t) <? 1)%float
    then (Raise (ValueError "Недостаточно средств для выполнения задачи"), t)
    else (Return (ModServ.predict (ModServ_b64.model t) (ModServ_b64.data t)),
          ModServ_b64_charged 1 t).
Proof.
  unfold ModServ_b64.execute, bind, get, zoom, ModServ_b64.TASK_COST.
  destruct (ModServ_b64.balance (ModServ_b64.account t) <? 1)%float eqn:E; [done|].
  rewrite withdraw_b64_run, E. reflexivity.
Qed.

Lemma Lession1_b64_execute_run (t : Lession1_b64.MLTask T') :
  Lession1_b64.execute t =
    if (1 <=? Lession1_b64.balance (Lession1_b64.user t))%float
    then (Return (Lession1.predict (Lession1_b64.model t) (Lession1_b64.data t)),
          Lession1_b64_charged 1 t)
    else (Raise (ValueError "Недостаточно средств на балансе"), t).
Proof.
  unfold Lession1_b64.execute, bind, get, zoom.
  destruct (1 <=? Lession1_b64.balance (Lession1_b64.user t))%float eqn:E; [|done].
  rewrite deduct_balance_b64_run, E. reflexivity.
Qed.

(** C4, as the code has it, in binary64.  With a balance of at least [1.0],
    [execute] returns [model.predict(data)] and leaves the task as it was
    but for the payer's balance, which becomes the float [balance - 1.0]:
    the difference rounded to the nearest float.  When the balance is at
    most [2.0 ** 53] nothing is rounded: the new balance is a finite number,
    exactly [1.0] below the old one.  With a balance below [1.0], [execute]
    raises [ValueError] and nothing changes.  The cost of [src/mod_serv.py]
    is its [TASK_COST]. *)
Theorem execute_charges_b64
    (t : ModServ_b64.MLTask T) (t' : Lession1_b64.MLTask T') :
  ModServ_b64.TASK_COST = 1%float /\
  ((1 <=? ModServ_b64.balance (ModServ_b64.account t))%float = true ->
     ModServ_b64.execute t =
       (Return (ModServ.predict (ModServ_b64.model t) (ModServ_b64.data t)),
        ModServ_b64_charged 1 t) /\
     ModServ_b64.balance (ModServ_b64.account (ModServ_b64.execute t).2) =
       (ModServ_b64.balance (ModServ_b64.account t) - 1)%float /\
     ((ModServ_b64.balance (ModServ_b64.account t) <=? 0x1p+53)%float = true ->
        is_finite (ModServ_b64.balance (ModServ_b64.account (ModServ_b64.execute t).2))
          = true /\
        (F2Q (ModServ_b64.balance (ModServ_b64.account (ModServ_b64.execute t).2))
           == F2Q (ModServ_b64.balance (ModServ_b64.account t)) - 1)%Q)) /\
  ((ModServ_b64.balance (ModServ_b64.account t) <? 1)%float = true ->
     rejected ModServ_b64.execute t) /\
  ((1 <=? Lession1_b64.balance (Lession1_b64.user t'))%float = true ->
     Lession1_b64.execute t' =
       (Return (Lession1.predict (Lession1_b64.model t') (Lession1_b64.data t')),
        Lession1_b64_charged 1 t') /\
     Lession1_b64.balance (Lession1_b64.user (Lession1_b64.execute t').2) =
       (Lession1_b64.balance (Lession1_b64.user t') - 1)%float /\
     ((Lession1_b64.balance (Lession1_b64.user t') <=? 0x1p+53)%float = true ->
        is_finite (Lession1_b64.balance (Lession1_b64.user (Lession1_b64.execute t').2))
          = true /\
        (F2Q (Lession1_b64.balance (Lession1_b64.user (Lession1_b64.execute t').2))
           == F2Q (Lession1_b64.balance (Lession1_b64.user t')) - 1)%Q)) /\
  ((Lession1_b64.balance (Lession1_b64.user t') <? 1)%float = true ->
     rejected Lession1_b64.execute t').
Proof.
  unfold rejected. rewrite ModServ_b64_execute_run, Lession1_b64_execute_run.
  split; [done|]. repeat apply conj.
  - intros Hb. rewrite (leb_ltb_false _ _ Hb). simpl.
    split; [done|]. split; [done|]. intros Hb'.
    destruct (sub_one_exact _ Hb Hb') as (Hn & Hi & Hq).
    split; [|done]. unfold is_finite. by rewrite Hn, Hi.
  - intros Hb. rewrite Hb. eauto.
  - intros Hb. rewrite Hb. simpl.
    split; [done|]. split; [done|]. intros Hb'.
    destruct (sub_one_exact _ Hb Hb') as (Hn & Hi & Hq).
    split; [|done]. unfold is_finite. by rewrite Hn, Hi.
  - intros Hb. rewrite (ltb_leb_false _ _ Hb). eauto.
Qed.


(** X10.  A top-up makes a task affordable: after a [deposit] (resp. an
    [Admin.add_user_balance]) of a positive amount that brings the payer's
    balance to [1.0] or more, [execute] returns [model.predict(data)], and
    the payer is left with the float [(balance + amount) - 1.0], the sum
    and the difference each rounded to the nearest float. *)
Theorem top_up_then_execute_b64
    (amount : float) (t : ModServ_b64.MLTask T) (t' : Lession1_b64.MLTask T') :
  (0 <? amount)%float = true ->
  (1 <=? ModServ_b64.balance (ModServ_b64.account t) + amount)%float = true ->
  (1 <=? Lession1_b64.balance (Lession1_b64.user t') + amount)%float = true ->
  let run := (zoom ModServ_b64.account ModServ_b64.set_account
                (ModServ_b64.deposit amount) ;;
              ModServ_b64.execute) t in
  let run' := (zoom Lession1_b64.user Lession1_b64.set_user
                 (Lession1_b64.add_user_balance amount) ;;
               Lession1_b64.execute) t' in
  (run.1 = Return (ModServ.predict (ModServ_b64.model t) (ModServ_b64.data t)) /\
   ModServ_b64.balance (ModServ_b64.account run.2) =
     (ModServ_b64.balance (ModServ_b64.account t) + amount - 1)%float) /\
  (run'.1 = Return (Lession1.predict (Lession1_b64.model t') (Lession1_b64.data t')) /\
   Lession1_b64.balance (Lession1_b64.user run'.2) =
     (Lession1_b64.balance (Lession1_b64.user t') + amount - 1)%float).
Proof.
  intros Hpos Hb Hb'. cbv zeta.
  unfold bind, zoom, Lession1_b64.add_user_balance.
  rewrite deposit_b64_run, add_balance_b64_run.
  rewrite (ltb_leb_false _ _ Hpos), Hpos.
  rewrite ModServ_b64_execute_run, Lession1_b64_execute_run.
  cbn [ModServ_b64.account ModServ_b64.set_account ModServ_b64.balance
       ModServ_b64.set_balance Lession1_b64.user Lession1_b64.set_user
       Lession1_b64.balance Lession1_b64.set_balance].
  rewrite (leb_ltb_false _ _ Hb), Hb'. by repeat split.
Qed.

End Execute_b64.

(** C4, as stated, fails above [2.0 ** 53]: with a balance of [1e17],
    [execute] of either module returns the prediction and leaves the task,
    the balance of the payer included, as it was: [1e17 - 1.0] is rounded
    back to [1e17].  Nothing was charged: the number that the new balance
    stands for is not the old one minus [1]. *)
Lemma execute_charges_nothing_at_1e17 :
  let t := ModServ_b64.mkMLTask 1
             (ModServ.User_init (fun pw => pw) 0 1 "user" "pw" ModServ.USER)
             (ModServ_b64.Account_init 0 1 1e17) [∅] ModServ.ExampleMLModel_init in
  let t' := Lession1_b64.mkMLTask 1
              (Lession1_b64.User_init 1 "user" "pw" 1e17 "user")
              [∅] Lession1.ExampleMLModel_init in
  (1 <=? ModServ_b64.balance (ModServ_b64.account t))%float = true /\
  ModServ_b64.execute t =
    (Return (ModServ.predict ModServ.ExampleMLModel_init [∅]), t) /\
  ModServ_b64.balance (ModServ_b64.account (ModServ_b64.execute t).2) = 1e17%float /\
  Lession1_b64.execute t' =
    (Return (Lession1.predict Lession1.ExampleMLModel_init [∅]), t') /\
  Lession1_b64.balance (Lession1_b64.user (Lession1_b64.execute t').2) = 1e17%float /\
  ~ (F2Q (ModServ_b64.balance (ModServ_b64.account (ModServ_b64.execute t).2))
       == F2Q (ModServ_b64.balance (ModServ_b64.account t)) - 1)%Q /\
  ~ (F2Q (Lession1_b64.balance (Lession1_b64.user (Lession1_b64.execute t').2))
       == F2Q (Lession1_b64.balance (Lession1_b64.user t')) - 1)%Q.
Proof.
  intros t t'. rewrite ModServ_b64_execute_run, Lession1_b64_execute_run.
  repeat split; intros H; vm_compute in H; discriminate.
Qed.

(** The theorem on a payer with [3.0], left with [2.0], and on one with
    less than the cost. *)
Lemma execute_charges_b64_witness :
  let paid := ModServ_b64.mkMLTask 1
                (ModServ.User_init (fun pw => pw) 0 1 "user" "pw" ModServ.USER)
                (ModServ_b64.Account_init 0 1 3) [∅; ∅] ModServ.ExampleMLModel_init in
  let broke := ModServ_b64.set_account (ModServ_b64.Account_init 0 1 0.5) paid in
  let paid' := Lession1_b64.mkMLTask 1
                 (Lession1_b64.User_init 1 "user" "pw" 3 "user")
                 [∅; ∅] Lession1.ExampleMLModel_init in
  let broke' := Lession1_b64.set_user
                  (Lession1_b64.User_init_default 1 "user" "pw") paid' in
  (ModServ_b64.execute paid =
     (Return (ModServ.predict ModServ.ExampleMLModel_init [∅; ∅]),
      ModServ_b64_charged 1 paid) /\
   ModServ_b64.balance (ModServ_b64.account (ModServ_b64.execute paid).2) = 2%float /\
   (F2Q (ModServ_b64.balance (ModServ_b64.account (ModServ_b64.execute paid).2))
      == F2Q 3 - 1)%Q) /\
  rejected ModServ_b64.execute broke /\
  (Lession1_b64.execute paid' =
     (Return (Lession1.predict Lession1.ExampleMLModel_init [∅; ∅]),
      Lession1_b64_charged 1 paid') /\
   Lession1_b64.balance (Lession1_b64.user (Lession1_b64.execute paid').2) = 2%float /\
   (F2Q (Lession1_b64.balance (Lession1_b64.user (Lession1_b64.execute paid').2))
      == F2Q 3 - 1)%Q) /\
  rejected Lession1_b64.execute broke'.
Proof.
  intros paid broke paid' broke'.
  destruct (execute_charges_b64 paid paid') as (_ & Hp & _ & Hp' & _).
  destruct (execute_charges_b64 broke broke') as (_ & _ & Hb & _ & Hb').
  destruct (Hp eq_refl) as (Hp1 & Hp2 & Hp3).
  destruct (Hp' eq_refl) as (Hp1' & Hp2' & Hp3').
  split; [split; [exact Hp1|split; [exact Hp2|apply (Hp3 eq_refl)]]|].
  split; [apply Hb; reflexivity|].
  split; [split; [exact Hp1'|split; [exact Hp2'|apply (Hp3' eq_refl)]]|].
  apply Hb'; reflexivity.
Defined.


(** The theorem for a top-up of [1.5] on payers that hold [0.0], and for a
    top-up of [3.0] on payers that hold [1e16]: they are left with
    [10000000000000004.0]. *)
Lemma top_up_then_execute_b64_witness :
  let t := ModServ_b64.mkMLTask 1
             (ModServ.User_init (fun pw => pw) 0 1 "user" "pw" ModServ.USER)
             (ModServ_b64.Account_init_default 0 1) [∅] ModServ.ExampleMLModel_init in
  let t' := Lession1_b64.mkMLTask 1 (Lession1_b64.User_init_default 1 "user" "pw")
              [∅] Lession1.ExampleMLModel_init in
  let rich := ModServ_b64.set_account (ModServ_b64.Account_init 0 1 1e16) t in
  let rich' := Lession1_b64.set_user
                 (Lession1_b64.User_init 1 "user" "pw" 1e16 "user") t' in
  let run := (zoom ModServ_b64.account ModServ_b64.set_account
                (ModServ_b64.deposit 1.5) ;;
              ModServ_b64.execute) t in
  let run' := (zoom Lession1_b64.user Lession1_b64.set_user
                 (Lession1_b64.add_user_balance 1.5) ;;
               Lession1_b64.execute) t' in
  let run_rich := (zoom ModServ_b64.account ModServ_b64.set_account
                     (ModServ_b64.deposit 3) ;;
                   ModServ_b64.execute) rich in
  let run_rich' := (zoom Lession1_b64.user Lession1_b64.set_user
                      (Lession1_b64.add_user_balance 3) ;;
                    Lession1_b64.execute) rich' in
  ((run.1 = Return (ModServ.predict ModServ.ExampleMLModel_init [∅]) /\
    ModServ_b64.balance (ModServ_b64.account run.2) = 0.5%float) /\
   (run'.1 = Return (Lession1.predict Lession1.ExampleMLModel_init [∅]) /\
    Lession1_b64.balance (Lession1_b64.user run'.2) = 0.5%float)) /\
  ((run_rich.1 = Return (ModServ.predict ModServ.ExampleMLModel_init [∅]) /\
    ModServ_b64.balance (ModServ_b64.account run_rich.2) = 10000000000000004%float) /\
   (run_rich'.1 = Return (Lession1.predict Lession1.ExampleMLModel_init [∅]) /\
    Lession1_b64.balance (Lession1_b64.user run_rich'.2) = 10000000000000004%float)).
Proof.
  intros t t' rich rich'.
  split.
  - apply (top_up_then_execute_b64 1.5 t t'); reflexivity.
  - apply (top_up_then_execute_b64 3 rich rich'); reflexivity.
Defined.
